(** * BIT* (Batch Informed Trees): the planner core of BITstar.cpp

    A shallow embedding of [ompl::geometric::BITstar] as a state-and-exception
    monad over the planner object, followed by the properties of the search
    loop, of pruning, of the RGG terms and of the small error paths.

    Conventions.
    - [double] is IEEE binary64 ([PrimFloat]); [ompl::base::Cost] wraps one
      [double], so [Cost] is [float] and [value()] is the identity.
    - [unsigned int] is a [Z] in [0, 2^32) with the wrap-around written out.
    - [boost::shared_ptr<T>] members are [option]s ([None] is the empty
      pointer); vertices live in a store indexed by [VertexPtr] because they
      are shared between the planner, the queue and the two nearest-neighbour
      structures.
    - Logging ([OMPL_INFORM], [statusMessage]) has no effect on the planner
      and is left out. *)

From Stdlib Require Import ZArith Floats Reals Lra Lia.
From stdpp Require Import base option strings gmap list.

Local Open Scope Z_scope.

(** ** Numbers *)

Abbreviation double := float.
Abbreviation Cost := float.

Definition UINT_MODULUS : Z := 2 ^ 32.

(** [unsigned int] addition and [++]. *)
Definition uint_add (a b : Z) : Z := (a + b) mod UINT_MODULUS.
Definition uint_incr (a : Z) : Z := uint_add a 1.

(** [std::numeric_limits<double>::infinity()]. *)
Definition DBL_INFINITY : double := infinity.

(** The part of [<cmath>] and of the language's conversions that the planner
    uses, over an arbitrary carrier: the planner runs them on binary64, the
    RGG formulas are also read over the reals. *)
Class DoubleOps (T : Type) : Type := {
  d_one : T;                       (* 1.0 *)
  d_two : T;                       (* 2.0 *)
  d_e : T;                         (* boost::math::constants::e<double>() *)
  d_add : T -> T -> T;
  d_mul : T -> T -> T;
  d_div : T -> T -> T;
  d_pow : T -> T -> T;             (* std::pow *)
  d_log : T -> T;                  (* std::log *)
  d_ceil : T -> T;                 (* std::ceil *)
  d_of_uint : Z -> T;              (* static_cast<double>(unsigned int) *)
  d_to_uint : T -> option Z        (* conversion to unsigned int; [None] when
                                      the value is not representable, where
                                      the conversion is undefined *)
}.

(** ** The RGG terms: [r], [k], [minimumRggR], [minimumRggK] *)

Module NearestTerms.
Section Terms.
Context {T : Type} {ops : DoubleOps T}.
(** What the four functions read from the planner. *)
Variable getStateDimension : Z.          (* Planner::si_->getStateDimension() *)
Variable getInformedMeasure : T.         (* sampler_->getInformedMeasure() *)
Variable unitNBallMeasure : Z -> T.      (* ProlateHyperspheroid::unitNBallMeasure *)
Variable rewireFactor_ : T.
Variable k_rgg_ : T.

Definition minimumRggR : T :=
  let dimDbl := d_of_uint getStateDimension in
  d_mul (d_mul rewireFactor_ d_two)
        (d_pow (d_mul (d_add d_one (d_div d_one dimDbl))
                      (d_div getInformedMeasure (unitNBallMeasure getStateDimension)))
               (d_div d_one dimDbl)).

Definition minimumRggK : T :=
  let dimDbl := d_of_uint getStateDimension in
  d_mul rewireFactor_ (d_add d_e (d_div d_e dimDbl)).

Definition r (N : Z) : T :=
  let dimDbl := d_of_uint getStateDimension in
  let cardDbl := d_of_uint N in
  d_mul minimumRggR (d_pow (d_div (d_log cardDbl) cardDbl) (d_div d_one dimDbl)).

Definition k (N : Z) : option Z :=
  d_to_uint (d_ceil (d_mul k_rgg_ (d_log (d_of_uint N)))).
End Terms.
End NearestTerms.

(** The same operations on real numbers: the reading of the planner's
    arithmetic in which its formulas are stated. *)
Module Ideal.
Local Open Scope R_scope.





End Ideal.

(** ** External collaborators *)

Definition VertexPtr := positive.
Definition vertex_pair_t : Type := VertexPtr * VertexPtr.

(** The member functions of [IntegratedQueue] that the planner calls, each
    with its result type. The queue's source file is not part of the
    planner's; what a call does is left to the implementation given to the
    planner (see [QueueEffect] and [IntegratedQueueImpl] below). *)
Module IntegratedQueue.
Inductive Call : Type -> Type :=
| setUseFailureTracking (trackFailures : bool) : Call unit
| clear : Call unit
| isEmpty : Call bool
| popFrontEdge : Call vertex_pair_t
| frontEdge : Call vertex_pair_t
| frontEdgeValue : Call (Cost * Cost)
| isSorted : Call bool
| finish : Call unit
| reset : Call unit
| prune : Call (Z * Z)               (* prune(vertexNN_, freeStateNN_) *)
| resort : Call (Z * Z)              (* resort(vertexNN_, freeStateNN_) *)
| setThreshold (costThreshold : Cost) : Call unit
| pruneEdgesTo (v : VertexPtr) : Call unit
| insertVertex (v : VertexPtr) : Call unit
| markVertexUnsorted (v : VertexPtr) : Call unit
| samplePruneCondition (v : VertexPtr) : Call bool
| listEdges : Call (list vertex_pair_t)
| listVertices : Call (list VertexPtr)
| numEdges : Call Z
| numVertices : Call Z.
End IntegratedQueue.

Section Planner.
(** [ompl::base::State], opaque. A [State*] is an [option]: [None] is [NULL]. *)
Context {State : Type}.
(** The internal state of the integrated queue object. *)
Context {Queue : Type}.

(** [ompl::base::SpaceInformation], as far as the planner calls it. *)
Record SpaceInformation : Type := {
  distance : option State -> option State -> double;
  checkMotion : option State -> option State -> bool;
  isValid : option State -> bool;
  getStateDimension : Z;
  getSpaceMeasure : double;
  allocState : State
}.

(** [ompl::base::InformedStateSampler]; it holds a pointer to [bestCost_]
    and reads it on each call, hence the argument of [getInformedMeasure]. *)
Record InformedStateSampler : Type := {
  hasInformedMeasure : bool;
  getInformedMeasure : Cost -> double
}.

(** [ompl::base::OptimizationObjective]. *)
Record OptimizationObjective : Type := {
  motionCost : option State -> option State -> Cost;
  motionCostHeuristic : option State -> option State -> Cost;
  combineCosts : Cost -> Cost -> Cost;
  combineCosts3 : Cost -> Cost -> Cost -> Cost;
  identityCost : Cost;
  infiniteCost : Cost;
  isSatisfied : Cost -> bool;
  allocInformedStateSampler : InformedStateSampler
}.

(** [ompl::base::PlannerSolution]: the path and the marks the planner sets. *)
Record PlannerSolution : Type := {
  path_ : list (option State);
  approximate_ : bool;
  difference_ : double;
  optimized_ : bool
}.

(** [ompl::base::ProblemDefinition]: the start states, the state of its
    [GoalState] goal, the objective if one was set, and the solution paths
    added so far. *)
Record ProblemDefinition : Type := {
  startStates : list State;
  goalState : State;
  optimizationObjective : option OptimizationObjective;
  solutionPaths : list PlannerSolution
}.

(** What the framework supplies besides: the default objective, [<cmath>] on
    binary64 and the measure of the unit ball. *)
Class Framework : Type := {
  PathLengthOptimizationObjective : SpaceInformation -> OptimizationObjective;
  unitNBallMeasure : Z -> double;
  std_pow : double -> double -> double;
  std_log : double -> double;
  std_ceil : double -> double;
  double_to_uint : double -> option Z
}.

(** ** Vertices *)

(** Modelled from the spec: the [Vertex] class (its source file is not part
    of the planner's), after the data model: state, parent, children,
    cost-to-come, the cost of the edge from the parent, the root flag, the
    failed children and the new-for-this-batch mark. *)
Record Vertex : Type := {
  v_state : option State;
  v_parent : option VertexPtr;
  v_children : list VertexPtr;
  v_cost : Cost;
  v_edgeCost : Cost;
  v_isRoot : bool;
  v_failedChildren : list VertexPtr;
  v_isNew : bool
}.

Definition Vertex_eta (v : Vertex) : Vertex :=
  {| v_state := v_state v; v_parent := v_parent v; v_children := v_children v;
     v_cost := v_cost v; v_edgeCost := v_edgeCost v; v_isRoot := v_isRoot v;
     v_failedChildren := v_failedChildren v; v_isNew := v_isNew v |}.

(** ** Nearest-neighbour structures *)

(** The one distance function the planner ever installs:
    [boost::bind(&BITstar::nnDistance, this, _1, _2)]. *)
Inductive DistanceFunction : Type := bind_nnDistance.

(** [ompl::NearestNeighbors<VertexPtr>]: its elements in [list()] order and
    the distance function set on it. *)
Record NearestNeighbors : Type := {
  nn_data : list VertexPtr;
  nn_distFun : option DistanceFunction
}.

(** ** The planner object *)

(** The members of [BITstar] in the order of its constructor's list, after
    the three members of the base class [Planner] that it uses, and with the
    store of the vertex objects the pointers refer to. *)
Record BITstar : Type := {
  si_ : SpaceInformation;
  pdef_ : option ProblemDefinition;
  setup_ : bool;
  sampler_ : option InformedStateSampler;
  opt_ : option OptimizationObjective;
  startVertex_ : option VertexPtr;
  goalVertex_ : option VertexPtr;
  freeStateNN_ : option NearestNeighbors;
  vertexNN_ : option NearestNeighbors;
  intQueue_ : option Queue;
  sampleDensity_ : double;
  r_ : double;
  k_rgg_ : double;
  k_ : Z;
  bestCost_ : Cost;
  prunedCost_ : Cost;
  minCost_ : Cost;
  costSampled_ : Cost;
  hasSolution_ : bool;
  approximateSoln_ : bool;
  approximateDiff_ : double;
  numIterations_ : Z;
  numBatches_ : Z;
  numPrunings_ : Z;
  numSamples_ : Z;
  numVertices_ : Z;
  numFreeStatesPruned_ : Z;
  numVerticesDisconnected_ : Z;
  numRewirings_ : Z;
  numStateCollisionChecks_ : Z;
  numEdgeCollisionChecks_ : Z;
  numNearestNeighbours_ : Z;
  useStrictQueueOrdering_ : bool;
  rewireFactor_ : double;
  samplesPerBatch_ : Z;
  useFailureTracking_ : bool;
  useKNearest_ : bool;
  usePruning_ : bool;
  pruneFraction_ : double;
  stopOnSolnChange_ : bool;
  vertices : gmap VertexPtr Vertex
}.

Definition BITstar_eta (s : BITstar) : BITstar :=
  {| si_ := si_ s; pdef_ := pdef_ s; setup_ := setup_ s; sampler_ := sampler_ s;
     opt_ := opt_ s; startVertex_ := startVertex_ s; goalVertex_ := goalVertex_ s;
     freeStateNN_ := freeStateNN_ s; vertexNN_ := vertexNN_ s; intQueue_ := intQueue_ s;
     sampleDensity_ := sampleDensity_ s; r_ := r_ s; k_rgg_ := k_rgg_ s; k_ := k_ s;
     bestCost_ := bestCost_ s; prunedCost_ := prunedCost_ s; minCost_ := minCost_ s;
     costSampled_ := costSampled_ s; hasSolution_ := hasSolution_ s;
     approximateSoln_ := approximateSoln_ s; approximateDiff_ := approximateDiff_ s;
     numIterations_ := numIterations_ s; numBatches_ := numBatches_ s;
     numPrunings_ := numPrunings_ s; numSamples_ := numSamples_ s;
     numVertices_ := numVertices_ s; numFreeStatesPruned_ := numFreeStatesPruned_ s;
     numVerticesDisconnected_ := numVerticesDisconnected_ s;
     numRewirings_ := numRewirings_ s;
     numStateCollisionChecks_ := numStateCollisionChecks_ s;
     numEdgeCollisionChecks_ := numEdgeCollisionChecks_ s;
     numNearestNeighbours_ := numNearestNeighbours_ s;
     useStrictQueueOrdering_ := useStrictQueueOrdering_ s;
     rewireFactor_ := rewireFactor_ s; samplesPerBatch_ := samplesPerBatch_ s;
     useFailureTracking_ := useFailureTracking_ s; useKNearest_ := useKNearest_ s;
     usePruning_ := usePruning_ s; pruneFraction_ := pruneFraction_ s;
     stopOnSolnChange_ := stopOnSolnChange_ s; vertices := vertices s |}.

(** Assignment to one member: [set m v s] is [s] with [m] replaced by [v].
    The tactic builds it from the record's eta expansion. *)
Ltac setter eta proj :=
  let v := fresh "v" in
  let s := fresh "s" in
  intros v s;
  let body := eval cbv [eta] in (eta s) in
  match eval pattern (proj s) in body with
  | ?f _ => let t := eval cbv beta in (f v) in exact t
  end.

Definition set_pdef_ : option ProblemDefinition -> BITstar -> BITstar := ltac:(setter BITstar_eta pdef_).
Definition set_setup_ : bool -> BITstar -> BITstar := ltac:(setter BITstar_eta setup_).
Definition set_sampler_ : option InformedStateSampler -> BITstar -> BITstar := ltac:(setter BITstar_eta sampler_).
Definition set_opt_ : option OptimizationObjective -> BITstar -> BITstar := ltac:(setter BITstar_eta opt_).
Definition set_startVertex_ : option VertexPtr -> BITstar -> BITstar := ltac:(setter BITstar_eta startVertex_).
Definition set_goalVertex_ : option VertexPtr -> BITstar -> BITstar := ltac:(setter BITstar_eta goalVertex_).
Definition set_freeStateNN_ : option NearestNeighbors -> BITstar -> BITstar := ltac:(setter BITstar_eta freeStateNN_).
Definition set_vertexNN_ : option NearestNeighbors -> BITstar -> BITstar := ltac:(setter BITstar_eta vertexNN_).
Definition set_intQueue_ : option Queue -> BITstar -> BITstar := ltac:(setter BITstar_eta intQueue_).
Definition set_sampleDensity_ : double -> BITstar -> BITstar := ltac:(setter BITstar_eta sampleDensity_).
Definition set_r_ : double -> BITstar -> BITstar := ltac:(setter BITstar_eta r_).
Definition set_k_rgg_ : double -> BITstar -> BITstar := ltac:(setter BITstar_eta k_rgg_).
Definition set_k_ : Z -> BITstar -> BITstar := ltac:(setter BITstar_eta k_).
Definition set_bestCost_ : Cost -> BITstar -> BITstar := ltac:(setter BITstar_eta bestCost_).
Definition set_prunedCost_ : Cost -> BITstar -> BITstar := ltac:(setter BITstar_eta prunedCost_).
Definition set_minCost_ : Cost -> BITstar -> BITstar := ltac:(setter BITstar_eta minCost_).
Definition set_costSampled_ : Cost -> BITstar -> BITstar := ltac:(setter BITstar_eta costSampled_).
Definition set_hasSolution_ : bool -> BITstar -> BITstar := ltac:(setter BITstar_eta hasSolution_).
Definition set_approximateSoln_ : bool -> BITstar -> BITstar := ltac:(setter BITstar_eta approximateSoln_).
Definition set_approximateDiff_ : double -> BITstar -> BITstar := ltac:(setter BITstar_eta approximateDiff_).
Definition set_numIterations_ : Z -> BITstar -> BITstar := ltac:(setter BITstar_eta numIterations_).
Definition set_numBatches_ : Z -> BITstar -> BITstar := ltac:(setter BITstar_eta numBatches_).
Definition set_numPrunings_ : Z -> BITstar -> BITstar := ltac:(setter BITstar_eta numPrunings_).
Definition set_numSamples_ : Z -> BITstar -> BITstar := ltac:(setter BITstar_eta numSamples_).
Definition set_numVertices_ : Z -> BITstar -> BITstar := ltac:(setter BITstar_eta numVertices_).
Definition set_numFreeStatesPruned_ : Z -> BITstar -> BITstar := ltac:(setter BITstar_eta numFreeStatesPruned_).
Definition set_numVerticesDisconnected_ : Z -> BITstar -> BITstar := ltac:(setter BITstar_eta numVerticesDisconnected_).
Definition set_numRewirings_ : Z -> BITstar -> BITstar := ltac:(setter BITstar_eta numRewirings_).
Definition set_numStateCollisionChecks_ : Z -> BITstar -> BITstar := ltac:(setter BITstar_eta numStateCollisionChecks_).
Definition set_numEdgeCollisionChecks_ : Z -> BITstar -> BITstar := ltac:(setter BITstar_eta numEdgeCollisionChecks_).
Definition set_numNearestNeighbours_ : Z -> BITstar -> BITstar := ltac:(setter BITstar_eta numNearestNeighbours_).
Definition set_useFailureTracking_ : bool -> BITstar -> BITstar := ltac:(setter BITstar_eta useFailureTracking_).
Definition set_vertices : gmap VertexPtr Vertex -> BITstar -> BITstar := ltac:(setter BITstar_eta vertices).

Definition set_v_parent : option VertexPtr -> Vertex -> Vertex := ltac:(setter Vertex_eta v_parent).
Definition set_v_state : option State -> Vertex -> Vertex := ltac:(setter Vertex_eta v_state).
Definition set_v_children : list VertexPtr -> Vertex -> Vertex := ltac:(setter Vertex_eta v_children).
Definition set_v_cost : Cost -> Vertex -> Vertex := ltac:(setter Vertex_eta v_cost).
Definition set_v_edgeCost : Cost -> Vertex -> Vertex := ltac:(setter Vertex_eta v_edgeCost).
Definition set_v_failedChildren : list VertexPtr -> Vertex -> Vertex := ltac:(setter Vertex_eta v_failedChildren).
Definition set_v_isNew : bool -> Vertex -> Vertex := ltac:(setter Vertex_eta v_isNew).

(** ** The monad of member functions *)

(** A member function runs on the planner object and either returns, or
    throws an [ompl::Exception] (the object stays as it was at the throw),
    or dereferences an empty pointer, after which nothing is defined. *)
Inductive outcome (A : Type) : Type :=
| Ok (a : A) (s : BITstar)
| Throw (what : string) (s : BITstar)
| Undefined.
Global Arguments Ok {A} a s.
Global Arguments Throw {A} what s.
Global Arguments Undefined {A}.

Definition M (A : Type) : Type := BITstar -> outcome A.

Definition ret {A} (a : A) : M A := fun s => Ok a s.

Definition bind {A B} (m : M A) (f : A -> M B) : M B :=
  fun s => match m s with
           | Ok a s' => f a s'
           | Throw what s' => Throw what s'
           | Undefined => Undefined
           end.

Notation "'let*' x := c1 'in' c2" := (bind c1 (fun x => c2))
  (at level 10, x pattern, c1 at level 100, c2 at level 200).
Notation "c1 >> c2" := (bind c1 (fun _ => c2))
  (at level 100, c2 at level 200, right associativity).

Definition gets {A} (f : BITstar -> A) : M A := fun s => Ok (f s) s.
Definition modify (f : BITstar -> BITstar) : M unit := fun s => Ok tt (f s).
Definition throw {A} (what : string) : M A := fun s => Throw what s.

(** [p->...] on a [shared_ptr] member. *)
Definition deref {A} (p : BITstar -> option A) : M A :=
  fun s => match p s with Some a => Ok a s | None => Undefined end.

(** [if (c) body;] *)
Definition when (c : bool) (body : M unit) : M unit := if c then body else ret tt.

(** ** Vertex objects in the store *)

(** [v->...] on a [VertexPtr]: the vertex it points to. *)
Definition vertex (v : VertexPtr) : M Vertex := deref (fun s => vertices s !! v).

(** Modelled from the spec: [Vertex]'s accessors, after the data model. *)
Definition getCost (v : Vertex) : Cost := v_cost v.
Definition state (v : Vertex) : option State := v_state v.
Definition getParent (v : Vertex) : option VertexPtr := v_parent v.
Definition hasParent (v : Vertex) : bool := bool_decide (is_Some (v_parent v)).
Definition isRoot (v : Vertex) : bool := v_isRoot v.
(** Modelled from the spec: a vertex is connected (in the tree) when it is
    the root or has a parent; a sample has neither. *)
Definition isConnected (v : Vertex) : bool := isRoot v || hasParent v.

(** Assignment through a [VertexPtr]: write the changed vertex back to the store. *)
Definition updateVertex (v : VertexPtr) (f : Vertex -> Vertex) : M unit :=
  let* vx := vertex v in
  modify (fun s => set_vertices (<[v := f vx]> (vertices s)) s).

(** Modelled from the spec: [Vertex]'s constructor [Vertex(si, opt, root)]:
    a freshly allocated state, no parent and no children; the root has the
    identity cost, any other vertex the infinite cost. *)
Definition newVertex (si : SpaceInformation) (opt : OptimizationObjective) (root : bool) : Vertex :=
  {| v_state := Some (allocState si); v_parent := None; v_children := [];
     v_cost := if root then identityCost opt else infiniteCost opt;
     v_edgeCost := infiniteCost opt; v_isRoot := root;
     v_failedChildren := []; v_isNew := true |}.

(** [boost::make_shared<Vertex>(si_, opt_, root)]: a new object in the store. *)
Definition make_shared_Vertex (opt : OptimizationObjective) (root : bool) : M VertexPtr :=
  let* p := gets (fun s => fresh (dom (vertices s))) in
  let* si := gets si_ in
  modify (fun s => set_vertices (<[p := newVertex si opt root]> (vertices s)) s) >>
  ret p.

(** Modelled from the spec: [mark_failed_child], [markNew], [add_child] and
    [remove_child] (the planner passes [false] for their cost-update flag). *)
Definition markAsFailedChild (u x : VertexPtr) : M unit :=
  updateVertex u (fun ux => set_v_failedChildren (x :: v_failedChildren ux) ux).
Definition markNew (v : VertexPtr) : M unit :=
  updateVertex v (set_v_isNew true).
Definition addChild (u x : VertexPtr) : M unit :=
  updateVertex u (fun ux => set_v_children (x :: v_children ux) ux).
Definition removeChild (u x : VertexPtr) : M unit :=
  updateVertex u (fun ux => set_v_children (filter (fun c => c <> x) (v_children ux)) ux).

(** Modelled from the spec: [update_cost_descending]: recompute the cost of
    [v] from its parent's current cost and the cached edge cost, then do the
    same for its children. The recursion follows the children; [fuel] bounds
    its depth by the number of vertices in the store. *)
Fixpoint updateCostDescending (opt : OptimizationObjective) (fuel : nat) (v : VertexPtr)
    (h : gmap VertexPtr Vertex) : gmap VertexPtr Vertex :=
  match fuel with
  | O => h
  | S fuel' =>
      match h !! v with
      | None => h
      | Some vx =>
          let c := if v_isRoot vx then identityCost opt
                   else match v_parent vx with
                        | None => infiniteCost opt
                        | Some p => match h !! p with
                                    | Some px => combineCosts opt (v_cost px) (v_edgeCost vx)
                                    | None => infiniteCost opt
                                    end
                        end in
          fold_left (fun acc ch => updateCostDescending opt fuel' ch acc)
                    (v_children vx) (<[v := set_v_cost c vx]> h)
      end
  end.

(** Modelled from the spec: [set_parent(p, edge_cost, cascade)] with
    [cascade = true], the only way the planner calls it. *)
Definition addParent (x u : VertexPtr) (edgeCost : Cost) : M unit :=
  let* opt := deref opt_ in
  updateVertex x (fun xx => set_v_edgeCost edgeCost (set_v_parent (Some u) xx)) >>
  modify (fun s => set_vertices
            (updateCostDescending opt (S (size (vertices s))) x (vertices s)) s).

(** Modelled from the spec: [clear_parent(cascade)] with [cascade = false]:
    the parent is dropped and no cost is touched. *)
Definition removeParent (x : VertexPtr) : M unit :=
  updateVertex x (set_v_parent None).

(** ** Nearest-neighbour structures: the operations the planner calls *)

Fixpoint remove_first (x : VertexPtr) (l : list VertexPtr) : list VertexPtr :=
  match l with
  | [] => []
  | y :: l' => if decide (x = y) then l' else y :: remove_first x l'
  end.

Definition NN_new : NearestNeighbors := {| nn_data := []; nn_distFun := None |}.
Definition NN_add (x : VertexPtr) (nn : NearestNeighbors) : NearestNeighbors :=
  {| nn_data := nn_data nn ++ [x]; nn_distFun := nn_distFun nn |}.
Definition NN_remove (x : VertexPtr) (nn : NearestNeighbors) : NearestNeighbors :=
  {| nn_data := remove_first x (nn_data nn); nn_distFun := nn_distFun nn |}.
Definition NN_setDistanceFunction (f : DistanceFunction) (nn : NearestNeighbors) : NearestNeighbors :=
  {| nn_data := nn_data nn; nn_distFun := Some f |}.
Definition NN_clear (nn : NearestNeighbors) : NearestNeighbors :=
  {| nn_data := []; nn_distFun := nn_distFun nn |}.
Definition NN_size (nn : NearestNeighbors) : Z := Z.of_nat (length (nn_data nn)).
Definition NN_list (nn : NearestNeighbors) : list VertexPtr := nn_data nn.

(** [freeStateNN_->op(...)] and [vertexNN_->op(...)]. *)
Definition onFreeStateNN (f : NearestNeighbors -> NearestNeighbors) : M unit :=
  let* nn := deref freeStateNN_ in modify (set_freeStateNN_ (Some (f nn))).
Definition onVertexNN (f : NearestNeighbors -> NearestNeighbors) : M unit :=
  let* nn := deref vertexNN_ in modify (set_vertexNN_ (Some (f nn))).

(** ** The integrated queue *)

(** What a call into the queue may leave changed. The queue owns its own
    state; it holds the vertex pointers and is handed the two
    nearest-neighbour structures; and it calls back [nearestSamples] and
    [nearestVertices], which sample a batch, count, and update the RGG terms
    ([updateSamples], [updateNearestTerms]). Every other member of the
    planner is private to it and out of the queue's reach. *)
Record QueueEffect : Type := {
  qe_queue : Queue;
  qe_vertices : gmap VertexPtr Vertex;
  qe_vertexNN : list VertexPtr;
  qe_freeStateNN : list VertexPtr;
  qe_numSamples : Z;
  qe_numStateCollisionChecks : Z;
  qe_numNearestNeighbours : Z;
  qe_costSampled : Cost;
  qe_r : double;
  qe_k : Z
}.

(** An implementation of the queue: its constructor (from the start and the
    goal vertex) and what each call returns and changes, given the queue and
    the planner it is bound to. *)
Class IntegratedQueueImpl : Type := {
  IntegratedQueue_new : VertexPtr -> VertexPtr -> Queue;
  IntegratedQueue_call : forall A : Type, IntegratedQueue.Call A -> Queue -> BITstar -> A * QueueEffect
}.

Definition withData (l : list VertexPtr) (nn : NearestNeighbors) : NearestNeighbors :=
  {| nn_data := l; nn_distFun := nn_distFun nn |}.

Definition commit (e : QueueEffect) (s : BITstar) : BITstar :=
  set_intQueue_ (Some (qe_queue e))
    (set_vertices (qe_vertices e)
      (set_vertexNN_ (withData (qe_vertexNN e) <$> vertexNN_ s)
        (set_freeStateNN_ (withData (qe_freeStateNN e) <$> freeStateNN_ s)
          (set_numSamples_ (qe_numSamples e)
            (set_numStateCollisionChecks_ (qe_numStateCollisionChecks e)
              (set_numNearestNeighbours_ (qe_numNearestNeighbours e)
                (set_costSampled_ (qe_costSampled e)
                  (set_r_ (qe_r e) (set_k_ (qe_k e) s))))))))).

Context {IQ : IntegratedQueueImpl}.
Context {FW : Framework}.

(** [intQueue_->call(...)]. *)
Definition intQueue {A} (call : IntegratedQueue.Call A) : M A :=
  fun s => match intQueue_ s with
           | None => Undefined
           | Some q => let (a, e) := IntegratedQueue_call A call q s in Ok a (commit e s)
           end.

(** ** Costs *)

Definition isCostBetterThan (a b : Cost) : bool := (a <? b)%float.
Definition isCostWorseThan (a b : Cost) : bool := isCostBetterThan b a.
Definition isCostEquivalentTo (a b : Cost) : bool :=
  negb (isCostBetterThan a b) && negb (isCostBetterThan b a).
Definition isCostNotEquivalentTo (a b : Cost) : bool :=
  isCostBetterThan a b || isCostBetterThan b a.
Definition isCostBetterThanOrEquivalentTo (a b : Cost) : bool := negb (isCostBetterThan b a).
Definition isCostWorseThanOrEquivalentTo (a b : Cost) : bool := negb (isCostBetterThan a b).
Definition betterCost (a b : Cost) : Cost := if isCostBetterThan b a then b else a.

Definition isFinite (cost : Cost) : M bool :=
  let* opt := deref opt_ in
  ret (isCostBetterThan cost (infiniteCost opt)).

Definition fractionalChange (newCost oldCost : Cost) : M double :=
  let* finite := isFinite oldCost in
  if negb finite then ret DBL_INFINITY
  else ret ((newCost - oldCost) / oldCost)%float.

(** ** Heuristics *)

Definition costToComeHeuristic (v : VertexPtr) : M Cost :=
  let* opt := deref opt_ in
  let* start := deref startVertex_ in
  let* sx := vertex start in
  let* vx := vertex v in
  ret (motionCostHeuristic opt (state sx) (state vx)).

Definition edgeCostHeuristic (edgePair : vertex_pair_t) : M Cost :=
  let* opt := deref opt_ in
  let* ux := vertex (fst edgePair) in
  let* xx := vertex (snd edgePair) in
  ret (motionCostHeuristic opt (state ux) (state xx)).

Definition costToGoHeuristic (v : VertexPtr) : M Cost :=
  let* opt := deref opt_ in
  let* vx := vertex v in
  let* goal := deref goalVertex_ in
  let* gx := vertex goal in
  ret (motionCostHeuristic opt (state vx) (state gx)).

Definition trueEdgeCost (edgePair : vertex_pair_t) : M Cost :=
  let* ux := vertex (fst edgePair) in
  let* xx := vertex (snd edgePair) in
  let* si := gets si_ in
  ret (distance si (state ux) (state xx)).

Definition neighbourhoodCost : M Cost :=
  let* r := gets r_ in ret (2 * r)%float.

Definition lowerBoundHeuristicVertex (v : VertexPtr) : M Cost :=
  let* opt := deref opt_ in
  let* g := costToComeHeuristic v in
  let* h := costToGoHeuristic v in
  ret (combineCosts opt g h).

Definition currentHeuristicVertex (v : VertexPtr) : M Cost :=
  let* opt := deref opt_ in
  let* vx := vertex v in
  let* h := costToGoHeuristic v in
  ret (combineCosts opt (getCost vx) h).

Definition lowerBoundHeuristicEdge (edgePair : vertex_pair_t) : M Cost :=
  let* opt := deref opt_ in
  let* g := costToComeHeuristic (fst edgePair) in
  let* c := edgeCostHeuristic edgePair in
  let* h := costToGoHeuristic (snd edgePair) in
  ret (combineCosts3 opt g c h).

Definition currentHeuristicEdgeTarget (edgePair : vertex_pair_t) : M Cost :=
  let* opt := deref opt_ in
  let* ux := vertex (fst edgePair) in
  let* c := edgeCostHeuristic edgePair in
  ret (combineCosts opt (getCost ux) c).

Definition currentHeuristicEdge (edgePair : vertex_pair_t) : M Cost :=
  let* opt := deref opt_ in
  let* t := currentHeuristicEdgeTarget edgePair in
  let* h := costToGoHeuristic (snd edgePair) in
  ret (combineCosts opt t h).

(** ** The distance of the nearest-neighbour structures *)

Definition nnDistance (a b : VertexPtr) : M double :=
  let* ax := vertex a in
  if bool_decide (state ax = None) then throw "a->state is unallocated"
  else
    let* bx := vertex b in
    if bool_decide (state bx = None) then throw "b->state is unallocated"
    else
      let* si := gets si_ in
      ret (distance si (state bx) (state ax)).

(** Calling the distance function stored in a structure. *)
Definition callDistanceFunction (f : DistanceFunction) (a b : VertexPtr) : M double :=
  match f with bind_nnDistance => nnDistance a b end.

(** ** The RGG terms on the planner *)

Local Instance binary64_ops : DoubleOps double := {|
  d_one := 1%float;
  d_two := 2%float;
  d_e := 0x1.5bf0a8b145769p+1%float;
  d_add := PrimFloat.add;
  d_mul := PrimFloat.mul;
  d_div := PrimFloat.div;
  d_pow := std_pow;
  d_log := std_log;
  d_ceil := std_ceil;
  d_of_uint := fun z => PrimFloat.of_uint63 (Uint63.of_Z z);
  d_to_uint := double_to_uint
|}.

Definition informedMeasure : M double :=
  let* sampler := deref sampler_ in
  let* best := gets bestCost_ in
  ret (getInformedMeasure sampler best).

Definition minimumRggR : M double :=
  let* si := gets si_ in
  let* mu := informedMeasure in
  let* eta := gets rewireFactor_ in
  ret (NearestTerms.minimumRggR (getStateDimension si) mu unitNBallMeasure eta).

Definition minimumRggK : M double :=
  let* si := gets si_ in
  let* eta := gets rewireFactor_ in
  ret (NearestTerms.minimumRggK (getStateDimension si) eta).

Definition r (N : Z) : M double :=
  let* si := gets si_ in
  let* mu := informedMeasure in
  let* eta := gets rewireFactor_ in
  ret (NearestTerms.r (getStateDimension si) mu unitNBallMeasure eta N).

Definition k (N : Z) : M Z :=
  let* k_rgg := gets k_rgg_ in
  deref (fun _ => NearestTerms.k k_rgg N).

Definition updateNearestTerms : M unit :=
  let* vnn := deref vertexNN_ in
  let* fnn := deref freeStateNN_ in
  let N := uint_add (NN_size vnn) (NN_size fnn) in
  let* useK := gets useKNearest_ in
  if useK then (let* kN := k N in modify (set_k_ kN))
  else (let* rN := r N in modify (set_r_ rN)).

Definition initializeNearestTerms : M unit :=
  let* krgg := minimumRggK in
  modify (set_k_rgg_ krgg) >>
  updateNearestTerms.

(** ** Samples, vertices and edges *)

(** [for (i = 0; i < l.size(); ++i) body(l.at(i));] *)
Fixpoint forEach {A} (l : list A) (body : A -> M unit) : M unit :=
  match l with
  | [] => ret tt
  | x :: l' => body x >> forEach l' body
  end.

Definition addSample (newSample : VertexPtr) : M unit :=
  markNew newSample >>
  onFreeStateNN (NN_add newSample).

Definition dropSample (oldSample : VertexPtr) : M unit :=
  modify (fun s => set_numFreeStatesPruned_ (uint_incr (numFreeStatesPruned_ s)) s) >>
  onFreeStateNN (NN_remove oldSample).

Definition addVertex (newVertex : VertexPtr) (removeFromFree updateExpansionQueue : bool) : M unit :=
  let* vx := vertex newVertex in
  if negb (hasParent vx) && negb (isRoot vx)
  then throw "Vertices must be connected to the graph before adding"
  else
    when removeFromFree (onFreeStateNN (NN_remove newVertex)) >>
    onVertexNN (NN_add newVertex) >>
    when updateExpansionQueue (intQueue (IntegratedQueue.insertVertex newVertex)) >>
    modify (fun s => set_numVertices_ (uint_incr (numVertices_ s)) s).

Definition replaceParent (newEdge : vertex_pair_t) (edgeCost : Cost) : M unit :=
  modify (fun s => set_numRewirings_ (uint_incr (numRewirings_ s)) s) >>
  let* xx := vertex (snd newEdge) in
  let* oldParent := deref (fun _ => getParent xx) in
  removeChild oldParent (snd newEdge) >>
  removeParent (snd newEdge) >>
  addChild (fst newEdge) (snd newEdge) >>
  addParent (snd newEdge) (fst newEdge) edgeCost >>
  intQueue (IntegratedQueue.markVertexUnsorted (snd newEdge)).

Definition addEdge (newEdge : vertex_pair_t) (edgeCost : Cost)
    (removeFromFree updateExpansionQueue : bool) : M unit :=
  let* xx := vertex (snd newEdge) in
  if isConnected xx then replaceParent newEdge edgeCost
  else
    addChild (fst newEdge) (snd newEdge) >>
    addParent (snd newEdge) (fst newEdge) edgeCost >>
    addVertex (snd newEdge) removeFromFree updateExpansionQueue.

Definition checkEdge (edge : vertex_pair_t) : M bool :=
  modify (fun s => set_numEdgeCollisionChecks_ (uint_incr (numEdgeCollisionChecks_ s)) s) >>
  let* ux := vertex (fst edge) in
  let* xx := vertex (snd edge) in
  let* si := gets si_ in
  ret (checkMotion si (state ux) (state xx)).

(** ** Pruning and resorting *)

Definition pruneSamples : M unit :=
  let* nn := deref freeStateNN_ in
  forEach (NN_list nn) (fun sample =>
    let* drop := intQueue (IntegratedQueue.samplePruneCondition sample) in
    when drop (dropSample sample)).

(** The two tests of [prune], in the order and with the short circuits of the
    source. *)
Definition pruneWorthwhile : M bool :=
  let* usePruning := gets usePruning_ in
  if negb usePruning then ret false
  else
    let* hasSolution := gets hasSolution_ in
    if negb hasSolution then ret false
    else
      let* best := gets bestCost_ in
      let* pruned := gets prunedCost_ in
      let* change := fractionalChange best pruned in
      let* fraction := gets pruneFraction_ in
      ret (fraction <? abs change)%float.

Definition informedSubsetSmaller : M bool :=
  let* sampler := deref sampler_ in
  let* mu := informedMeasure in
  let* si := gets si_ in
  ret ((hasInformedMeasure sampler && (mu <? getSpaceMeasure si)%float)
       || negb (hasInformedMeasure sampler)).

(** The body of the inner [if] of [prune]. *)
Definition pruneSweep : M unit :=
  modify (fun s => set_numPrunings_ (uint_incr (numPrunings_ s)) s) >>
  pruneSamples >>
  let* numPruned := intQueue IntegratedQueue.prune in
  modify (fun s => set_numVerticesDisconnected_
                     (uint_add (numVerticesDisconnected_ s) (fst numPruned)) s) >>
  modify (fun s => set_numFreeStatesPruned_
                     (uint_add (numFreeStatesPruned_ s) (snd numPruned)) s) >>
  modify (fun s => set_prunedCost_ (bestCost_ s) s).

Definition prune : M unit :=
  let* worthwhile := pruneWorthwhile in
  if worthwhile then
    let* smaller := informedSubsetSmaller in
    if smaller then pruneSweep else ret tt
  else ret tt.

Definition resort : M unit :=
  let* numPruned := intQueue IntegratedQueue.resort in
  modify (fun s => set_numVerticesDisconnected_
                     (uint_add (numVerticesDisconnected_ s) (fst numPruned)) s) >>
  modify (fun s => set_numFreeStatesPruned_
                     (uint_add (numFreeStatesPruned_ s) (snd numPruned)) s).

Definition newBatch : M unit :=
  modify (fun s => set_numBatches_ (uint_incr (numBatches_ s)) s) >>
  modify (fun s => set_costSampled_ (minCost_ s) s) >>
  intQueue IntegratedQueue.reset >>
  prune >>
  let* mu := informedMeasure in
  modify (fun s => set_sampleDensity_
                     (PrimFloat.of_uint63 (Uint63.of_Z (samplesPerBatch_ s)) / mu)%float s).

(** ** Publishing the solution *)

(** A member function with a loop is run with [fuel]: [None] when the fuel
    does not suffice. *)
Definition Run (A : Type) : Type := BITstar -> option (outcome A).

Definition bindR {A B} (m : Run A) (f : A -> Run B) : Run B :=
  fun s => match m s with
           | None => None
           | Some (Ok a s') => f a s'
           | Some (Throw what s') => Some (Throw what s')
           | Some Undefined => Some Undefined
           end.

Definition liftR {A} (m : M A) : Run A := fun s => Some (m s).





(** ** Setup and clear *)

(** The base class: [Planner::setup()] marks the planner as set up. *)
Definition Planner_setup : M unit := modify (set_setup_ true).

Definition setOptimizationObjective (o : OptimizationObjective) (pdef : ProblemDefinition) : ProblemDefinition :=
  {| startStates := startStates pdef; goalState := goalState pdef;
     optimizationObjective := Some o; solutionPaths := solutionPaths pdef |}.

(** [si_->copyState(v->state(), source)]. *)
Definition copyState (v : VertexPtr) (source : State) : M unit :=
  updateVertex v (set_v_state (Some source)).

Definition setup : M unit :=
  Planner_setup >>
  let* pdef0 := gets pdef_ in
  match pdef0 with
  | None => modify (set_setup_ false)
  | Some pdef =>
      match startStates pdef with
      | [startState] =>
          let* si := gets si_ in
          when (bool_decide (optimizationObjective pdef = None))
               (modify (set_pdef_ (Some (setOptimizationObjective
                                           (PathLengthOptimizationObjective si) pdef)))) >>
          let* pdef1 := deref pdef_ in
          modify (set_opt_ (optimizationObjective pdef1)) >>
          let* fnn := gets freeStateNN_ in
          when (negb (bool_decide (is_Some fnn))) (modify (set_freeStateNN_ (Some NN_new))) >>
          let* vnn := gets vertexNN_ in
          when (negb (bool_decide (is_Some vnn))) (modify (set_vertexNN_ (Some NN_new))) >>
          onFreeStateNN (NN_setDistanceFunction bind_nnDistance) >>
          onVertexNN (NN_setDistanceFunction bind_nnDistance) >>
          let* opt := deref opt_ in
          let* start := make_shared_Vertex opt true in
          modify (set_startVertex_ (Some start)) >>
          copyState start startState >>
          let* goal := make_shared_Vertex opt false in
          modify (set_goalVertex_ (Some goal)) >>
          copyState goal (goalState pdef1) >>
          modify (set_intQueue_ (Some (IntegratedQueue_new start goal))) >>
          let* track := gets useFailureTracking_ in
          intQueue (IntegratedQueue.setUseFailureTracking track) >>
          modify (set_sampler_ (Some (allocInformedStateSampler opt))) >>
          modify (set_bestCost_ (infiniteCost opt)) >>
          modify (set_prunedCost_ (infiniteCost opt)) >>
          let* g := costToComeHeuristic goal in
          modify (set_minCost_ g) >>
          modify (fun s => set_costSampled_ (bestCost_ s) s) >>
          addSample goal >>
          addVertex start false true >>
          initializeNearestTerms
      | _ => modify (set_setup_ false)
      end
  end.

Definition clear : M unit :=
  modify (set_sampler_ None) >>
  modify (set_opt_ None) >>
  modify (set_startVertex_ None) >>
  modify (set_goalVertex_ None) >>
  let* fnn := gets freeStateNN_ in
  when (bool_decide (is_Some fnn))
       (onFreeStateNN NN_clear >> modify (set_freeStateNN_ None)) >>
  let* vnn := gets vertexNN_ in
  when (bool_decide (is_Some vnn))
       (onVertexNN NN_clear >> modify (set_vertexNN_ None)) >>
  let* q := gets intQueue_ in
  when (bool_decide (is_Some q))
       (intQueue IntegratedQueue.clear >> modify (set_intQueue_ None)) >>
  modify (set_sampleDensity_ 0%float) >>
  modify (set_r_ 0%float) >>
  modify (set_k_rgg_ 0%float) >>
  modify (set_k_ 0) >>
  modify (set_bestCost_ DBL_INFINITY) >>
  modify (set_prunedCost_ DBL_INFINITY) >>
  modify (set_minCost_ 0%float) >>
  modify (set_costSampled_ 0%float) >>
  modify (set_hasSolution_ false) >>
  modify (set_approximateSoln_ false) >>
  modify (set_approximateDiff_ (-1)%float) >>
  modify (set_numIterations_ 0) >>
  modify (set_numSamples_ 0) >>
  modify (set_numVertices_ 0) >>
  modify (set_numFreeStatesPruned_ 0) >>
  modify (set_numVerticesDisconnected_ 0) >>
  modify (set_numStateCollisionChecks_ 0) >>
  modify (set_numEdgeCollisionChecks_ 0) >>
  modify (set_numNearestNeighbours_ 0) >>
  modify (set_numRewirings_ 0) >>
  modify (set_numBatches_ 0) >>
  modify (set_numPrunings_ 0) >>
  modify (set_setup_ false).
(* [Planner::clear()] follows: it resets the planner's input states, which
   the model does not hold. *)

(** ** The search *)

(** The base class: [Planner::checkValidity()] sets the planner up if it is
    not, then refuses a missing problem definition or start state. *)
Definition checkValidity : M unit :=
  let* isSetup := gets setup_ in
  when (negb isSetup) setup >>
  let* pdef := gets pdef_ in
  match pdef with
  | None => throw "Problem definition not specified"
  | Some pd => if bool_decide (startStates pd = []) then throw "No start states specified"
               else ret tt
  end.

(** The goal vertex's cost-to-come: [goalVertex_->getCost()]. *)
Definition goalCost : M Cost :=
  let* goal := deref goalVertex_ in
  let* gx := vertex goal in
  ret (getCost gx).

(** [if (useFailureTracking_ == true) bestEdge.first->markAsFailedChild(bestEdge.second);] *)
Definition recordFailure (bestEdge : vertex_pair_t) : M unit :=
  let* track := gets useFailureTracking_ in
  when track (markAsFailedChild (fst bestEdge) (snd bestEdge)).

(** Lines 396-420: the check for an improved solution after an edge was
    added; the result is the new value of [stopLoop]. *)
Definition checkImprovedSolution (stopLoop : bool) : M bool :=
  let* g := goalCost in
  let* best := gets bestCost_ in
  if isCostBetterThan g best then
    let* hasSolution := gets hasSolution_ in
    when (negb hasSolution)
         (modify (set_approximateSoln_ false) >> modify (set_approximateDiff_ (-1)%float)) >>
    modify (set_hasSolution_ true) >>
    let* g' := goalCost in
    modify (set_bestCost_ g') >>
    let* best' := gets bestCost_ in
    intQueue (IntegratedQueue.setThreshold best') >>
    gets stopOnSolnChange_
  else ret stopLoop.

(** Lines 374-442: the edge passed the first gate. *)
Definition processEdge (bestEdge : vertex_pair_t) (stopLoop : bool) : M bool :=
  let* c := trueEdgeCost bestEdge in
  let* opt := deref opt_ in
  let* g_hat := costToComeHeuristic (fst bestEdge) in
  let* h_hat := costToGoHeuristic (snd bestEdge) in
  let* g_goal := goalCost in
  if isCostBetterThan (combineCosts3 opt g_hat c h_hat) g_goal then
    let* collisionFree := checkEdge bestEdge in
    if collisionFree then
      let* ux := vertex (fst bestEdge) in
      let* xx := vertex (snd bestEdge) in
      if isCostBetterThan (combineCosts opt (getCost ux) c) (getCost xx) then
        addEdge bestEdge c true true >>
        let* stopLoop' := checkImprovedSolution stopLoop in
        intQueue (IntegratedQueue.pruneEdgesTo (snd bestEdge)) >>
        ret stopLoop'
      else ret stopLoop
    else recordFailure bestEdge >> ret stopLoop
  else recordFailure bestEdge >> ret stopLoop.

(** Lines 370-454: what the loop does with the edge it popped. *)
Definition considerEdge (bestEdge : vertex_pair_t) (stopLoop : bool) : M bool :=
  let* opt := deref opt_ in
  let* ux := vertex (fst bestEdge) in
  let* c_hat := edgeCostHeuristic bestEdge in
  let* h_hat := costToGoHeuristic (snd bestEdge) in
  let* g_goal := goalCost in
  if isCostBetterThan (combineCosts3 opt (getCost ux) c_hat h_hat) g_goal then
    processEdge bestEdge stopLoop
  else
    let* sorted := intQueue IntegratedQueue.isSorted in
    if negb sorted then resort >> ret stopLoop
    else intQueue IntegratedQueue.finish >> ret stopLoop.

(** One pass through the body of the [while] loop of [solve]. *)
Definition iteration (stopLoop : bool) : M bool :=
  modify (fun s => set_numIterations_ (uint_incr (numIterations_ s)) s) >>
  let* strict := gets useStrictQueueOrdering_ in
  when strict resort >>
  let* empty := intQueue IntegratedQueue.isEmpty in
  when empty newBatch >>
  let* bestEdge := intQueue IntegratedQueue.popFrontEdge in
  considerEdge bestEdge stopLoop.

(** The loop's condition; [terminate] is what the termination condition
    answers if it is asked now. *)
Definition loopCondition (terminate stopLoop : bool) : M bool :=
  let* opt := deref opt_ in
  let* best := gets bestCost_ in
  if isSatisfied opt best then ret false
  else if terminate then ret false
  else
    let* minCost := gets minCost_ in
    ret (isCostBetterThan minCost best && negb stopLoop).

(** The [while] loop. [ptc n] is the answer of the termination condition the
    [n]-th time it is asked in this call (once per test of the loop's
    condition that gets to it). *)
Fixpoint solveLoop (fuel : nat) (ptc : nat -> bool) (asked : nat) (stopLoop : bool) : Run unit :=
  bindR (liftR (loopCondition (ptc asked) stopLoop)) (fun continue =>
    if continue then
      match fuel with
      | O => fun _ => None
      | S fuel' =>
          bindR (liftR (iteration stopLoop)) (fun stopLoop' =>
          solveLoop fuel' ptc (S asked) stopLoop')
      end
    else liftR (ret tt)).


(** ** Queries on the queue *)

Definition getNextEdgeInQueue : M (option State * option State) :=
  let* strict := gets useStrictQueueOrdering_ in
  when strict resort >>
  let* empty := intQueue IntegratedQueue.isEmpty in
  if negb empty then
    let* e1 := intQueue IntegratedQueue.frontEdge in
    let* ux := vertex (fst e1) in
    let* e2 := intQueue IntegratedQueue.frontEdge in
    let* xx := vertex (snd e2) in
    ret (state ux, state xx)
  else ret (None, None).

Definition getNextEdgeValueInQueue : M Cost :=
  let* strict := gets useStrictQueueOrdering_ in
  when strict resort >>
  let* empty := intQueue IntegratedQueue.isEmpty in
  if negb empty then
    let* value := intQueue IntegratedQueue.frontEdgeValue in
    ret (fst value)
  else
    let* opt := deref opt_ in
    ret (infiniteCost opt).


(** ** Settings *)





Definition setUseFailureTracking (trackFailures : bool) : M unit :=
  modify (set_useFailureTracking_ trackFailures) >>
  let* q := gets intQueue_ in
  when (bool_decide (is_Some q))
       (let* track := gets useFailureTracking_ in
        intQueue (IntegratedQueue.setUseFailureTracking track)).






(** ** The constructor *)

Definition BITstar_new (si : SpaceInformation) : BITstar :=
  {| si_ := si; pdef_ := None; setup_ := false;
     sampler_ := None; opt_ := None; startVertex_ := None; goalVertex_ := None;
     freeStateNN_ := None; vertexNN_ := None; intQueue_ := None;
     sampleDensity_ := 0%float; r_ := 0%float; k_rgg_ := 0%float; k_ := 0;
     bestCost_ := DBL_INFINITY; prunedCost_ := DBL_INFINITY;
     minCost_ := 0%float; costSampled_ := 0%float;
     hasSolution_ := false; approximateSoln_ := false; approximateDiff_ := (-1)%float;
     numIterations_ := 0; numBatches_ := 0; numPrunings_ := 0; numSamples_ := 0;
     numVertices_ := 0; numFreeStatesPruned_ := 0; numVerticesDisconnected_ := 0;
     numRewirings_ := 0; numStateCollisionChecks_ := 0; numEdgeCollisionChecks_ := 0;
     numNearestNeighbours_ := 0;
     useStrictQueueOrdering_ := false; rewireFactor_ := 0x1.199999999999ap+0%float;
     samplesPerBatch_ := 100; useFailureTracking_ := false; useKNearest_ := false;
     usePruning_ := true; pruneFraction_ := 0x1.47ae147ae147bp-7%float;
     stopOnSolnChange_ := false;
     vertices := ∅ |}.

End Planner.

Global Arguments SpaceInformation : clear implicits.
Global Arguments OptimizationObjective : clear implicits.
Global Arguments InformedStateSampler : clear implicits.
Global Arguments ProblemDefinition : clear implicits.
Global Arguments Vertex : clear implicits.
Global Arguments BITstar : clear implicits.
Global Arguments QueueEffect : clear implicits.
Global Arguments IntegratedQueueImpl : clear implicits.
Global Arguments Framework : clear implicits.
Global Arguments M : clear implicits.
Global Arguments Run : clear implicits.
Global Arguments outcome : clear implicits.

Notation "'let*' x := c1 'in' c2" := (bind c1 (fun x => c2))
  (at level 10, x pattern, c1 at level 100, c2 at level 200).
Notation "c1 >> c2" := (bind c1 (fun _ => c2))
  (at level 100, c2 at level 200, right associativity).

(** ** A small instance: points on a line, a queue that is a list of edges *)

Module Line.
Definition State : Type := double.
Definition Queue : Type := list vertex_pair_t.

Definition si : SpaceInformation State := {|
  distance := fun a b => match a, b with
                         | Some x, Some y => abs (x - y)%float
                         | _, _ => 0%float
                         end;
  checkMotion := fun _ _ => true;
  isValid := fun _ => true;
  getStateDimension := 1;
  getSpaceMeasure := 10%float;
  allocState := 0%float
|}.

Definition sampler : InformedStateSampler := {|
  hasInformedMeasure := false;
  getInformedMeasure := fun _ => 10%float
|}.

(** Path length: the motion cost is the distance, costs add up. *)
Definition pathLength (si : SpaceInformation State) : OptimizationObjective State := {|
  motionCost := distance si;
  motionCostHeuristic := distance si;
  combineCosts := fun a b => (a + b)%float;
  combineCosts3 := fun a b c => (a + b + c)%float;
  identityCost := 0%float;
  infiniteCost := infinity;
  isSatisfied := fun _ => false;
  allocInformedStateSampler := sampler
|}.


#[export] Instance framework : Framework State := {|
  PathLengthOptimizationObjective := pathLength;
  unitNBallMeasure := fun _ => 2%float;
  std_pow := fun x _ => x;
  std_log := fun x => x;
  std_ceil := fun x => x;
  double_to_uint := fun _ => Some 1
|}.

(** The queue leaves everything but itself as the planner has it. *)
Definition keep (q : Queue) (s : BITstar State Queue) : QueueEffect State Queue := {|
  qe_queue := q;
  qe_vertices := vertices s;
  qe_vertexNN := from_option nn_data [] (vertexNN_ s);
  qe_freeStateNN := from_option nn_data [] (freeStateNN_ s);
  qe_numSamples := numSamples_ s;
  qe_numStateCollisionChecks := numStateCollisionChecks_ s;
  qe_numNearestNeighbours := numNearestNeighbours_ s;
  qe_costSampled := costSampled_ s;
  qe_r := r_ s;
  qe_k := k_ s
|}.

(** Every edge from a vertex of the tree to a sample. *)
Definition allEdges (s : BITstar State Queue) : Queue :=
  u ← from_option nn_data [] (vertexNN_ s);
  x ← from_option nn_data [] (freeStateNN_ s);
  [(u, x)].

Definition call (A : Type) (c : IntegratedQueue.Call A) (q : Queue) (s : BITstar State Queue)
    : A * QueueEffect State Queue :=
  match c in IntegratedQueue.Call T return T * QueueEffect State Queue with
  | IntegratedQueue.setUseFailureTracking _ => (tt, keep q s)
  | IntegratedQueue.clear => (tt, keep [] s)
  | IntegratedQueue.isEmpty => (bool_decide (q = []), keep q s)
  | IntegratedQueue.popFrontEdge => (hd (1%positive, 1%positive) q, keep (tl q) s)
  | IntegratedQueue.frontEdge => (hd (1%positive, 1%positive) q, keep q s)
  | IntegratedQueue.frontEdgeValue => ((0%float, 0%float), keep q s)
  | IntegratedQueue.isSorted => (true, keep q s)
  | IntegratedQueue.finish => (tt, keep [] s)
  | IntegratedQueue.reset => (tt, keep (allEdges s) s)
  | IntegratedQueue.prune => ((0, 0), keep q s)
  | IntegratedQueue.resort => ((0, 0), keep q s)
  | IntegratedQueue.setThreshold _ => (tt, keep q s)
  | IntegratedQueue.pruneEdgesTo x => (tt, keep (filter (fun e => snd e <> x) q) s)
  | IntegratedQueue.insertVertex _ => (tt, keep q s)
  | IntegratedQueue.markVertexUnsorted _ => (tt, keep q s)
  | IntegratedQueue.samplePruneCondition _ => (false, keep q s)
  | IntegratedQueue.listEdges => (q, keep q s)
  | IntegratedQueue.listVertices => ([], keep q s)
  | IntegratedQueue.numEdges => (Z.of_nat (length q), keep q s)
  | IntegratedQueue.numVertices => (0, keep q s)
  end.

#[export] Instance queue : IntegratedQueueImpl State Queue := {|
  IntegratedQueue_new := fun _ _ => [];
  IntegratedQueue_call := call
|}.

(** The problem: from 0 to 1. *)
Definition problem : ProblemDefinition State := {|
  startStates := [0%float];
  goalState := 1%float;
  optimizationObjective := None;
  solutionPaths := []
|}.

Definition planner : BITstar State Queue := set_pdef_ (Some problem) (BITstar_new si).

(** The planner after [setup]: vertex 1 is the start, vertex 2 the goal. *)
Definition ready : BITstar State Queue :=
  match setup planner with Ok _ s => s | _ => planner end.

(** The two vertices of [ready]. *)
Definition startOnLine : Vertex State :=
  {| v_state := Some 0%float; v_parent := None; v_children := [];
     v_cost := 0%float; v_edgeCost := infinity; v_isRoot := true;
     v_failedChildren := []; v_isNew := true |}.

Definition goalOnLine : Vertex State :=
  {| v_state := Some 1%float; v_parent := None; v_children := [];
     v_cost := infinity; v_edgeCost := infinity; v_isRoot := false;
     v_failedChildren := []; v_isNew := true |}.

(** The same planner later in a search: a solution of cost 1 has been found
    since the graph was pruned at cost 2. *)
Definition improved : BITstar State Queue :=
  set_prunedCost_ 2%float (set_bestCost_ 1%float (set_hasSolution_ true ready)).


End Line.

(** * Properties *)

(** ** The order of costs *)

(** [<] on binary64 is a strict order (it is false on NaN). *)
Lemma SFltb_trans (f1 f2 f3 : spec_float) :
  SFltb f1 f2 = true -> SFltb f2 f3 = true -> SFltb f1 f3 = true.
Proof.
  unfold SFltb, SFcompare.
  destruct f1 as [s1 | s1 | | s1 m1 e1], f2 as [s2 | s2 | | s2 m2 e2],
           f3 as [s3 | s3 | | s3 m3 e3];
    try discriminate; try reflexivity;
    try destruct s1; try destruct s2; try destruct s3; try discriminate; try reflexivity.
  all: destruct (Z.compare_spec e1 e2), (Z.compare_spec e2 e3), (Z.compare_spec e1 e3);
    try discriminate; try reflexivity; try lia.
  all: subst; rewrite ?Pos.compare_cont_spec; unfold Pos.switch_Eq;
    destruct (Pos.compare_spec m1 m2), (Pos.compare_spec m2 m3), (Pos.compare_spec m1 m3);
    simpl; try discriminate; try reflexivity; try lia.
Qed.


Lemma isCostBetterThan_trans (a b c : Cost) :
  isCostBetterThan a b = true -> isCostBetterThan b c = true -> isCostBetterThan a c = true.
Proof. unfold isCostBetterThan. rewrite !ltb_spec. apply SFltb_trans. Qed.


(** [a] is [b] or strictly better. *)
Definition notWorse (a b : Cost) : Prop := a = b \/ isCostBetterThan a b = true.

Lemma notWorse_refl (a : Cost) : notWorse a a.
Proof. left. reflexivity. Qed.

Lemma notWorse_trans (a b c : Cost) : notWorse a b -> notWorse b c -> notWorse a c.
Proof.
  intros [-> | Hab] [-> | Hbc]; unfold notWorse; auto.
  right. exact (isCostBetterThan_trans a b c Hab Hbc).
Qed.

Section Properties.
Context {State Queue : Type}.
Context {IQ : IntegratedQueueImpl State Queue} {FW : Framework State}.

Implicit Types s : BITstar State Queue.
Implicit Types v u x : VertexPtr.

(** Unfolding the monad's plumbing. *)
Ltac plumbing :=
  unfold when, onFreeStateNN, onVertexNN, updateVertex, vertex, intQueue,
         bind, ret, gets, modify, throw, deref in *.

(** ** Adding a vertex *)

Lemma hasParent_true (vx : Vertex State) : hasParent vx = true <-> is_Some (v_parent vx).
Proof. unfold hasParent. apply bool_decide_eq_true. Qed.

(** C6. [addVertex] on a vertex with neither a parent nor the root flag throws
    and leaves the planner as it was: the samples, the vertices, the queue
    and the vertex counter in particular. On a vertex with a parent or the
    root flag, and a planner whose structures are allocated, it returns. *)
Theorem addVertex_requires_connection s v vx (removeFromFree updateExpansionQueue : bool) :
  vertices s !! v = Some vx ->
  (hasParent vx = false -> isRoot vx = false ->
     addVertex v removeFromFree updateExpansionQueue s
     = Throw "Vertices must be connected to the graph before adding" s)
  /\ (hasParent vx = true \/ isRoot vx = true ->
      is_Some (freeStateNN_ s) -> is_Some (vertexNN_ s) -> is_Some (intQueue_ s) ->
      exists s', addVertex v removeFromFree updateExpansionQueue s = Ok tt s'
                 /\ numVertices_ s' = uint_incr (numVertices_ s)).
Proof.
  intros Hv. split.
  - intros Hp Hr. unfold addVertex. plumbing. rewrite Hv, Hp, Hr. reflexivity.
  - intros Hc [fnn Hf] [vnn Hn] [q Hq].
    assert (negb (hasParent vx) && negb (isRoot vx) = false) as Hgate.
    { destruct Hc as [-> | ->]; [reflexivity | apply andb_false_r]. }
    unfold addVertex. plumbing. rewrite Hv, Hgate.
    destruct removeFromFree, updateExpansionQueue; simpl; rewrite ?Hf; simpl;
      rewrite ?Hn; simpl; rewrite ?Hq; simpl;
      try destruct (IntegratedQueue_call _ _ _ _) as [[] e]; eexists; split; reflexivity.
Qed.

(** ** Reasoning about member functions *)

(** [hoare P m Q E]: from a planner satisfying [P], [m] returns [a] with [Q a]
    or throws with [E]. *)
Definition hoare {A} (P : BITstar State Queue -> Prop) (m : M State Queue A)
    (Q : A -> BITstar State Queue -> Prop) (E : BITstar State Queue -> Prop) : Prop :=
  forall s, P s ->
    match m s with
    | Ok a s' => Q a s'
    | Throw _ s' => E s'
    | Undefined => True
    end.

(** [I] holds after [m] if it held before, however [m] ends. *)
Definition keeps {A} (I : BITstar State Queue -> Prop) (m : M State Queue A) : Prop :=
  hoare I m (fun _ => I) I.

Lemma hoare_bind {A B} P (m : M State Queue A) Q (f : A -> M State Queue B) R' E :
  hoare P m Q E -> (forall a, hoare (Q a) (f a) R' E) -> hoare P (bind m f) R' E.
Proof.
  intros Hm Hf s HP. unfold bind. specialize (Hm s HP).
  destruct (m s) as [a s' | w s' |]; [apply (Hf a s' Hm) | exact Hm | exact I].
Qed.

Lemma hoare_weaken {A} (P P' : BITstar State Queue -> Prop) (m : M State Queue A)
    (Q Q' : A -> BITstar State Queue -> Prop) (E E' : BITstar State Queue -> Prop) :
  hoare P' m Q' E' -> (forall s, P s -> P' s) -> (forall a s, Q' a s -> Q a s) ->
  (forall s, E' s -> E s) -> hoare P m Q E.
Proof.
  intros H HP HQ HE s Hs. specialize (H s (HP s Hs)).
  destruct (m s); auto.
Qed.

Lemma keeps_bind {A B} I (m : M State Queue A) (f : A -> M State Queue B) :
  keeps I m -> (forall a, keeps I (f a)) -> keeps I (bind m f).
Proof. intros Hm Hf. exact (hoare_bind I m (fun _ => I) f (fun _ => I) I Hm Hf). Qed.

Lemma keeps_ret {A} I (a : A) : keeps I (ret a).
Proof. intros s Hs. exact Hs. Qed.

Lemma keeps_gets {A} I (f : BITstar State Queue -> A) : keeps I (gets f).
Proof. intros s Hs. exact Hs. Qed.

Lemma keeps_throw {A} I (what : string) : keeps I (@throw State Queue A what).
Proof. intros s Hs. exact Hs. Qed.

Lemma keeps_deref {A} I (p : BITstar State Queue -> option A) : keeps I (deref p).
Proof. intros s Hs. unfold deref. destruct (p s); [exact Hs | exact Logic.I]. Qed.

Lemma keeps_undefined {A} I : keeps I (fun _ : BITstar State Queue => @Undefined State Queue A).
Proof. intros s Hs. exact Logic.I. Qed.

Lemma keeps_modify I (f : BITstar State Queue -> BITstar State Queue) :
  (forall s, I s -> I (f s)) -> keeps I (modify f).
Proof. intros Hf s Hs. exact (Hf s Hs). Qed.

Lemma keeps_intQueue {A} I (c : IntegratedQueue.Call A) :
  (forall e s, I s -> I (commit e s)) -> keeps I (intQueue c).
Proof.
  intros Hc s Hs. unfold intQueue. destruct (intQueue_ s) as [q|]; [|exact Logic.I].
  destruct (IntegratedQueue_call A c q s) as [a e]. exact (Hc e s Hs).
Qed.

Lemma keeps_onFreeStateNN I (f : NearestNeighbors -> NearestNeighbors) :
  (forall s nn, freeStateNN_ s = Some nn -> I s -> I (set_freeStateNN_ (Some (f nn)) s)) ->
  keeps I (onFreeStateNN f).
Proof.
  intros Hf s Hs. unfold onFreeStateNN, bind, deref, modify.
  destruct (freeStateNN_ s) as [nn|] eqn:E; [exact (Hf s nn E Hs) | exact Logic.I].
Qed.

Lemma keeps_onVertexNN I (f : NearestNeighbors -> NearestNeighbors) :
  (forall s nn, vertexNN_ s = Some nn -> I s -> I (set_vertexNN_ (Some (f nn)) s)) ->
  keeps I (onVertexNN f).
Proof.
  intros Hf s Hs. unfold onVertexNN, bind, deref, modify.
  destruct (vertexNN_ s) as [nn|] eqn:E; [exact (Hf s nn E Hs) | exact Logic.I].
Qed.

Lemma keeps_when I (c : bool) (body : M State Queue unit) :
  keeps I body -> keeps I (when c body).
Proof. intros Hb. destruct c; [exact Hb | apply keeps_ret]. Qed.

Lemma keeps_forEach {A} I (l : list A) (body : A -> M State Queue unit) :
  (forall a, keeps I (body a)) -> keeps I (forEach l body).
Proof.
  intros Hb. induction l as [|a l IH]; simpl.
  - apply keeps_ret.
  - apply keeps_bind; [apply Hb | intros _; exact IH].
Qed.

(** An invariant that only looks at members the vertex store, the
    nearest-neighbour structures and the queue's side effects do not reach
    is kept by every step: the tactic takes a function apart down to its
    assignments and leaves those. *)
Ltac keeps_unfold :=
  unfold updateVertex, vertex,
    markAsFailedChild, markNew, addChild, removeChild, addParent, removeParent,
    make_shared_Vertex, copyState, Planner_setup,
    isFinite, fractionalChange, costToComeHeuristic, edgeCostHeuristic,
    costToGoHeuristic, trueEdgeCost, neighbourhoodCost, goalCost, informedMeasure,
    minimumRggR, minimumRggK, r, k, updateNearestTerms, initializeNearestTerms,
    addSample, dropSample, addVertex, replaceParent, addEdge, checkEdge,
    pruneSamples, pruneWorthwhile, informedSubsetSmaller, pruneSweep, prune, resort,
    newBatch, recordFailure, processEdge, considerEdge,
    iteration, loopCondition, setup, clear, checkValidity.

Ltac keeps_step :=
  lazymatch goal with
  | |- keeps _ (ret _) => apply keeps_ret
  | |- keeps _ (gets _) => apply keeps_gets
  | |- keeps _ (throw _) => apply keeps_throw
  | |- keeps _ (deref _) => apply keeps_deref
  | |- keeps _ (fun _ => Undefined) => apply keeps_undefined
  | |- keeps _ (onFreeStateNN _) => apply keeps_onFreeStateNN; intros ? ? ? ?
  | |- keeps _ (onVertexNN _) => apply keeps_onVertexNN; intros ? ? ? ?
  | |- keeps _ (when _ _) => apply keeps_when
  | |- keeps _ (forEach _ _) => apply keeps_forEach; intros ?
  | |- keeps _ (bind _ _) => apply keeps_bind; [| intros ?]
  | |- keeps _ (modify _) => apply keeps_modify; intros ? ?
  | |- keeps _ (intQueue _) => apply keeps_intQueue; intros ? ? ?
  | |- keeps _ (if ?b then _ else _) => destruct b
  | |- keeps _ (match ?x with _ => _ end) => destruct x
  | |- keeps _ _ => progress (keeps_unfold; cbv beta zeta)
  end.

(** Running a function one step at a time, from a given planner. *)
Lemma bind_assoc_at {A B C} (m : M State Queue A) (f : A -> M State Queue B)
    (g : B -> M State Queue C) s :
  bind (bind m f) g s = bind m (fun a => bind (f a) g) s.
Proof. unfold bind. destruct (m s); reflexivity. Qed.

Lemma bind_ret_at {A B} (a : A) (f : A -> M State Queue B) s : bind (ret a) f s = f a s.
Proof. reflexivity. Qed.

Lemma bind_gets_at {A B} (g : BITstar State Queue -> A) (f : A -> M State Queue B) s :
  bind (gets g) f s = f (g s) s.
Proof. reflexivity. Qed.

Lemma bind_modify_at {B} (g : BITstar State Queue -> BITstar State Queue)
    (f : unit -> M State Queue B) s :
  bind (modify g) f s = f tt (g s).
Proof. reflexivity. Qed.

Lemma bind_deref_at {A B} (p : BITstar State Queue -> option A) (f : A -> M State Queue B) s a :
  p s = Some a -> bind (deref p) f s = f a s.
Proof. intros H. unfold bind, deref. rewrite H. reflexivity. Qed.

Lemma bind_throw_at {A B} (what : string) (f : A -> M State Queue B) s :
  bind (throw what) f s = Throw what s.
Proof. reflexivity. Qed.

Lemma bind_intQueue_at {A B} (c : IntegratedQueue.Call A) (f : A -> M State Queue B) s q :
  intQueue_ s = Some q ->
  bind (intQueue c) f s
  = f (fst (IntegratedQueue_call A c q s)) (commit (snd (IntegratedQueue_call A c q s)) s).
Proof.
  intros H. unfold bind, intQueue. rewrite H.
  destruct (IntegratedQueue_call A c q s); reflexivity.
Qed.

Lemma bool_decide_is_Some_Some {A} (a : A) : bool_decide (is_Some (Some a)) = true.
Proof. apply bool_decide_eq_true. eauto. Qed.

Lemma bool_decide_is_Some_None {A} : bool_decide (is_Some (@None A)) = false.
Proof. apply bool_decide_eq_false. intros [? ?]. discriminate. Qed.

Lemma bind_when_true_at {B} (body : M State Queue unit) (f : unit -> M State Queue B) s :
  bind (when true body) f s = bind body f s.
Proof. reflexivity. Qed.

Lemma bind_when_false_at {B} (body : M State Queue unit) (f : unit -> M State Queue B) s :
  bind (when false body) f s = f tt s.
Proof. reflexivity. Qed.

Ltac run :=
  repeat first
    [ rewrite bind_assoc_at | rewrite bind_ret_at | rewrite bind_gets_at
    | rewrite bind_modify_at | rewrite bind_when_true_at | rewrite bind_when_false_at
    | rewrite bind_throw_at
    | match goal with
      | |- context [bind (deref ?p) ?f ?s1] =>
          let v := eval cbv beta in (p s1) in
          let v' := eval simpl in v in
          match goal with
          | H : v' = Some ?a |- _ => rewrite (bind_deref_at p f s1 a) by (simpl; exact H)
          end
      end ].

(** ** The distance function of the nearest-neighbour structures *)

(** Both structures are allocated and carry [nnDistance]. *)
Definition distanceInstalled s : Prop :=
  exists fnn vnn, freeStateNN_ s = Some fnn /\ vertexNN_ s = Some vnn
                  /\ nn_distFun fnn = Some bind_nnDistance
                  /\ nn_distFun vnn = Some bind_nnDistance.

Ltac distance_installed :=
  match goal with
  | H : distanceInstalled _ |- _ =>
      let fnn := fresh "fnn" in let vnn := fresh "vnn" in
      destruct H as (fnn & vnn & ? & ? & ? & ?);
      unfold distanceInstalled; simpl;
      repeat match goal with
             | H1 : ?a = Some _, H2 : ?a = Some _ |- _ =>
                 rewrite H1 in H2; injection H2 as <-
             end;
      repeat match goal with H1 : _ = Some _ |- _ => rewrite H1 end;
      simpl; eauto 10
  end.

Lemma setup_installs_distance :
  hoare (fun _ => True) setup
        (fun _ s' => setup_ s' = true -> distanceInstalled s') (fun _ => True).
Proof.
  intros s _. unfold setup, Planner_setup.
  rewrite bind_modify_at, bind_gets_at. simpl.
  destruct (pdef_ s) as [pdef|]; [|simpl; discriminate].
  destruct (startStates pdef) as [|startState [|? ?]]; try (simpl; discriminate).
  rewrite bind_gets_at. simpl.
  match goal with
  | |- match bind (when ?c ?body) ?rest ?s1 with _ => _ end =>
      assert (forall s2, freeStateNN_ s2 = freeStateNN_ s -> vertexNN_ s2 = vertexNN_ s ->
                match rest tt s2 with
                | Ok _ s' => setup_ s' = true -> distanceInstalled s'
                | Throw _ _ => True
                | Undefined => True
                end) as Hrest;
      [| destruct c; apply Hrest; reflexivity ]
  end.
  intros s2 Hf Hv.
  unfold deref at 1. unfold bind at 1.
  destruct (pdef_ s2) as [pdef1|]; [|exact I].
  rewrite bind_modify_at, bind_gets_at.
  assert (forall s3, is_Some (freeStateNN_ s3) -> is_Some (vertexNN_ s3) ->
            match
              (onFreeStateNN (NN_setDistanceFunction bind_nnDistance) >>
               onVertexNN (NN_setDistanceFunction bind_nnDistance) >>
               (let* opt := deref opt_ in
                let* start := make_shared_Vertex opt true in
                modify (set_startVertex_ (Some start)) >>
                copyState start startState >>
                let* goal := make_shared_Vertex opt false in
                modify (set_goalVertex_ (Some goal)) >>
                copyState goal (goalState pdef1) >>
                modify (set_intQueue_ (Some (IntegratedQueue_new start goal))) >>
                let* track := gets useFailureTracking_ in
                intQueue (IntegratedQueue.setUseFailureTracking track) >>
                modify (set_sampler_ (Some (allocInformedStateSampler opt))) >>
                modify (set_bestCost_ (infiniteCost opt)) >>
                modify (set_prunedCost_ (infiniteCost opt)) >>
                let* g := costToComeHeuristic goal in
                modify (set_minCost_ g) >>
                modify (fun s => set_costSampled_ (bestCost_ s) s) >>
                addSample goal >> addVertex start false true >> initializeNearestTerms)) s3
            with
            | Ok _ s' => setup_ s' = true -> distanceInstalled s'
            | Throw _ _ => True
            | Undefined => True
            end) as Htail.
  { intros s3 [fnn Hf3] [vnn Hv3].
    unfold onFreeStateNN at 1. rewrite bind_assoc_at, (bind_deref_at _ _ _ _ Hf3).
    rewrite bind_modify_at.
    unfold onVertexNN at 1. rewrite bind_assoc_at, (bind_deref_at _ _ _ vnn) by exact Hv3.
    rewrite bind_modify_at.
    match goal with
    | |- match ?m ?s4 with _ => _ end =>
        assert (keeps distanceInstalled m) as Hk;
        [| assert (distanceInstalled s4) as H4
             by (unfold distanceInstalled; simpl; eauto 10);
           specialize (Hk s4 H4); destruct (m s4); auto ]
    end.
    keeps_unfold. repeat keeps_step; distance_installed. }
  change (freeStateNN_ (set_opt_ (optimizationObjective pdef1) s2)) with (freeStateNN_ s2).
  destruct (freeStateNN_ s2) as [fnn|] eqn:Ef;
    rewrite ?bool_decide_is_Some_Some, ?bool_decide_is_Some_None; simpl negb;
    rewrite ?bind_when_true_at, ?bind_when_false_at, ?bind_modify_at, bind_gets_at;
    simpl vertexNN_;
    (destruct (vertexNN_ s2) as [vnn|] eqn:Ev;
     rewrite ?bool_decide_is_Some_Some, ?bool_decide_is_Some_None; simpl negb;
     rewrite ?bind_when_true_at, ?bind_when_false_at, ?bind_modify_at;
     apply Htail; simpl; rewrite ?Ef, ?Ev; eauto).
Qed.

(** C10. [nnDistance(a, b)] is the distance from [b]'s state to [a]'s, the
    arguments reversed; it throws when [a]'s state is unallocated, and when
    [b]'s is; and [setup], when it succeeds, leaves both nearest-neighbour
    structures with [nnDistance] as their distance function. *)
Theorem nnDistance_reverses_arguments s a b ax bx :
  vertices s !! a = Some ax -> vertices s !! b = Some bx ->
  (forall sa sb, state ax = Some sa -> state bx = Some sb ->
     nnDistance a b s = Ok (distance (si_ s) (Some sb) (Some sa)) s)
  /\ (state ax = None -> nnDistance a b s = Throw "a->state is unallocated" s)
  /\ (is_Some (state ax) -> state bx = None ->
      nnDistance a b s = Throw "b->state is unallocated" s)
  /\ (forall a' b' s1, callDistanceFunction bind_nnDistance a' b' s1 = nnDistance a' b' s1)
  /\ (forall s0 s', setup s0 = Ok tt s' -> setup_ s' = true -> distanceInstalled s').
Proof.
  intros Ha Hb. unfold nnDistance.
  split; [|split; [|split; [|split]]].
  - intros sa sb Hsa Hsb. plumbing. rewrite Ha, Hsa. simpl. rewrite Hb, Hsb. reflexivity.
  - intros Hsa. plumbing. rewrite Ha, Hsa. reflexivity.
  - intros [sa Hsa] Hsb. plumbing. rewrite Ha, Hsa. simpl. rewrite Hb, Hsb. reflexivity.
  - reflexivity.
  - intros s0 s' Hs0. pose proof (setup_installs_distance s0 I) as H.
    rewrite Hs0 in H. exact H.
Qed.

(** ** Functions that return *)

(** [returns P m Q]: from a planner satisfying [P], [m] returns, with [Q]. *)
Definition returns {A} (P : BITstar State Queue -> Prop) (m : M State Queue A)
    (Q : A -> BITstar State Queue -> Prop) : Prop :=
  forall s, P s -> exists a s', m s = Ok a s' /\ Q a s'.

(** [m] returns and keeps [I]. *)
Definition safe {A} (I : BITstar State Queue -> Prop) (m : M State Queue A) : Prop :=
  returns I m (fun _ => I).

Lemma returns_bind {A B} P (m : M State Queue A) Q (f : A -> M State Queue B) R' :
  returns P m Q -> (forall a, returns (Q a) (f a) R') -> returns P (bind m f) R'.
Proof.
  intros Hm Hf s HP. destruct (Hm s HP) as (a & s1 & E1 & HQ).
  destruct (Hf a s1 HQ) as (b & s2 & E2 & HR).
  exists b, s2. split; [|exact HR]. unfold bind. rewrite E1. exact E2.
Qed.

Lemma returns_weaken {A} (P P' : BITstar State Queue -> Prop) (m : M State Queue A)
    (Q Q' : A -> BITstar State Queue -> Prop) :
  returns P' m Q' -> (forall s, P s -> P' s) -> (forall a s, Q' a s -> Q a s) ->
  returns P m Q.
Proof.
  intros H HP HQ s Hs. destruct (H s (HP s Hs)) as (a & s' & E & Hq). eauto.
Qed.

Lemma safe_bind {A B} I (m : M State Queue A) (f : A -> M State Queue B) :
  safe I m -> (forall a, safe I (f a)) -> safe I (bind m f).
Proof. intros Hm Hf. exact (returns_bind I m (fun _ => I) f (fun _ => I) Hm Hf). Qed.

Lemma safe_ret {A} I (a : A) : safe I (ret a).
Proof. intros s Hs. exists a, s. split; [reflexivity | exact Hs]. Qed.

Lemma safe_gets {A} I (f : BITstar State Queue -> A) : safe I (gets f).
Proof. intros s Hs. exists (f s), s. split; [reflexivity | exact Hs]. Qed.

Lemma safe_modify I (f : BITstar State Queue -> BITstar State Queue) :
  (forall s, I s -> I (f s)) -> safe I (modify f).
Proof. intros Hf s Hs. exists tt, (f s). split; [reflexivity | exact (Hf s Hs)]. Qed.

Lemma safe_deref {A} I (p : BITstar State Queue -> option A) :
  (forall s, I s -> is_Some (p s)) -> safe I (deref p).
Proof.
  intros Hp s Hs. destruct (Hp s Hs) as [a E]. exists a, s.
  split; [unfold deref; rewrite E; reflexivity | exact Hs].
Qed.

Lemma safe_intQueue {A} I (c : IntegratedQueue.Call A) :
  (forall s, I s -> is_Some (intQueue_ s)) ->
  (forall e s, I s -> I (commit e s)) -> safe I (intQueue c).
Proof.
  intros Hq Hc s Hs. destruct (Hq s Hs) as [q E]. unfold intQueue. rewrite E.
  destruct (IntegratedQueue_call A c q s) as [a e]. exists a, (commit e s).
  split; [reflexivity | exact (Hc e s Hs)].
Qed.

Lemma safe_onFreeStateNN I (f : NearestNeighbors -> NearestNeighbors) :
  (forall s, I s -> is_Some (freeStateNN_ s)) ->
  (forall s nn, freeStateNN_ s = Some nn -> I s -> I (set_freeStateNN_ (Some (f nn)) s)) ->
  safe I (onFreeStateNN f).
Proof.
  intros Hn Hf s Hs. destruct (Hn s Hs) as [nn E].
  exists tt, (set_freeStateNN_ (Some (f nn)) s).
  split; [unfold onFreeStateNN, bind, deref, modify; rewrite E; reflexivity | exact (Hf s nn E Hs)].
Qed.

Lemma safe_onVertexNN I (f : NearestNeighbors -> NearestNeighbors) :
  (forall s, I s -> is_Some (vertexNN_ s)) ->
  (forall s nn, vertexNN_ s = Some nn -> I s -> I (set_vertexNN_ (Some (f nn)) s)) ->
  safe I (onVertexNN f).
Proof.
  intros Hn Hf s Hs. destruct (Hn s Hs) as [nn E].
  exists tt, (set_vertexNN_ (Some (f nn)) s).
  split; [unfold onVertexNN, bind, deref, modify; rewrite E; reflexivity | exact (Hf s nn E Hs)].
Qed.

Lemma safe_when I (c : bool) (body : M State Queue unit) :
  safe I body -> safe I (when c body).
Proof. intros Hb. destruct c; [exact Hb | apply safe_ret]. Qed.

Lemma safe_forEach {A} I (l : list A) (body : A -> M State Queue unit) :
  (forall a, safe I (body a)) -> safe I (forEach l body).
Proof.
  intros Hb. induction l as [|a l IH]; simpl.
  - apply safe_ret.
  - apply safe_bind; [apply Hb | intros _; exact IH].
Qed.

Ltac safe_step :=
  lazymatch goal with
  | |- safe _ (ret _) => apply safe_ret
  | |- safe _ (gets _) => apply safe_gets
  | |- safe _ (onFreeStateNN _) => apply safe_onFreeStateNN; [intros ? ? | intros ? ? ? ?]
  | |- safe _ (onVertexNN _) => apply safe_onVertexNN; [intros ? ? | intros ? ? ? ?]
  | |- safe _ (when _ _) => apply safe_when
  | |- safe _ (forEach _ _) => apply safe_forEach; intros ?
  | |- safe _ (bind _ _) => apply safe_bind; [| intros ?]
  | |- safe _ (modify _) => apply safe_modify; intros ? ?
  | |- safe _ (deref _) => apply safe_deref; intros ? ?
  | |- safe _ (intQueue _) => apply safe_intQueue; [intros ? ? | intros ? ? ?]
  | |- safe _ (if ?b then _ else _) => destruct b
  | |- safe _ _ => progress (keeps_unfold; cbv beta zeta)
  | |- returns ?I ?m _ => change (safe I m)
  end.

(** ** Pruning *)

(** The two structures the sweep works on are allocated. *)
Definition sweepable s : Prop :=
  is_Some (freeStateNN_ s) /\ is_Some (intQueue_ s).

Ltac sweepable_tac :=
  match goal with
  | H : sweepable _ /\ _ |- _ =>
      let fnn := fresh "fnn" in let q := fresh "q" in
      destruct H as [[[fnn ?] [q ?]] [? ?]];
      unfold sweepable; simpl;
      repeat match goal with H1 : _ = Some _ |- _ => rewrite H1 end;
      simpl; eauto 10
  end.

Lemma returns_modify P (f : BITstar State Queue -> BITstar State Queue)
    (Q : unit -> BITstar State Queue -> Prop) :
  (forall s, P s -> Q tt (f s)) -> returns P (modify f) Q.
Proof. intros Hf s Hs. exists tt, (f s). split; [reflexivity | exact (Hf s Hs)]. Qed.

Lemma pruneSweep_returns s :
  sweepable s ->
  exists s', pruneSweep s = Ok tt s'
             /\ numPrunings_ s' = uint_incr (numPrunings_ s)
             /\ prunedCost_ s' = bestCost_ s
             /\ bestCost_ s' = bestCost_ s.
Proof.
  intros Hs.
  set (I1 := fun s1 : BITstar State Queue =>
               sweepable s1 /\ numPrunings_ s1 = uint_incr (numPrunings_ s)
               /\ bestCost_ s1 = bestCost_ s).
  assert (returns (fun s0 => s0 = s) pruneSweep
            (fun _ s' => numPrunings_ s' = uint_incr (numPrunings_ s)
                         /\ prunedCost_ s' = bestCost_ s /\ bestCost_ s' = bestCost_ s)) as H.
  { unfold pruneSweep.
    apply returns_bind with (Q := fun _ => I1).
    { apply returns_modify. intros ? ->. unfold I1. simpl. auto. }
    intros _. apply returns_bind with (Q := fun _ => I1).
    { unfold pruneSamples, dropSample, I1. repeat safe_step; sweepable_tac. }
    intros _. apply returns_bind with (Q := fun _ => I1).
    { unfold I1. repeat safe_step; sweepable_tac. }
    intros numPruned. apply returns_bind with (Q := fun _ => I1).
    { unfold I1. repeat safe_step; sweepable_tac. }
    intros _. apply returns_bind with (Q := fun _ => I1).
    { unfold I1. repeat safe_step; sweepable_tac. }
    intros _. apply returns_modify. intros s1 (_ & Hn & Hb). simpl. auto. }
  destruct (H s eq_refl) as ([] & s' & E & Hpost). eauto.
Qed.

(** The fractional change of the best cost since the last pruning, as
    [fractionalChange] computes it for an allocated objective. *)
Definition changeSincePruning (opt : OptimizationObjective State) s : double :=
  if isCostBetterThan (prunedCost_ s) (infiniteCost opt)
  then ((bestCost_ s - prunedCost_ s) / prunedCost_ s)%float
  else DBL_INFINITY.

(** The test of [prune] with the fractional change taken with its sign, as
    the specification words it. *)
Definition signedPruneTest (opt : OptimizationObjective State) (sampler : InformedStateSampler) s
    : bool :=
  usePruning_ s && hasSolution_ s
  && (pruneFraction_ s <? changeSincePruning opt s)%float
  && (negb (hasInformedMeasure sampler)
      || (getInformedMeasure sampler (bestCost_ s) <? getSpaceMeasure (si_ s))%float).

Lemma fractionalChange_at s opt (newCost oldCost : Cost) :
  opt_ s = Some opt ->
  fractionalChange newCost oldCost s
  = Ok (if isCostBetterThan oldCost (infiniteCost opt)
        then ((newCost - oldCost) / oldCost)%float else DBL_INFINITY) s.
Proof.
  intros Ho. unfold fractionalChange, isFinite.
  rewrite bind_assoc_at, (bind_deref_at _ _ _ _ Ho), bind_ret_at.
  destruct (isCostBetterThan oldCost (infiniteCost opt)); reflexivity.
Qed.

Lemma pruneWorthwhile_at s opt :
  opt_ s = Some opt ->
  pruneWorthwhile s
  = Ok (usePruning_ s && hasSolution_ s
        && (pruneFraction_ s <? abs (changeSincePruning opt s))%float) s.
Proof.
  intros Ho. unfold pruneWorthwhile. rewrite bind_gets_at.
  destruct (usePruning_ s); [|reflexivity]. cbn [negb].
  rewrite bind_gets_at.
  destruct (hasSolution_ s); [|reflexivity]. cbn [negb].
  rewrite !bind_gets_at. unfold bind at 1.
  rewrite (fractionalChange_at s opt _ _ Ho). reflexivity.
Qed.

Lemma informedSubsetSmaller_at s sampler :
  sampler_ s = Some sampler ->
  informedSubsetSmaller s
  = Ok (negb (hasInformedMeasure sampler)
        || (getInformedMeasure sampler (bestCost_ s) <? getSpaceMeasure (si_ s))%float) s.
Proof.
  intros Hs. unfold informedSubsetSmaller, informedMeasure. run. unfold ret.
  f_equal. destruct (hasInformedMeasure sampler); simpl; [| reflexivity].
  apply orb_false_r.
Qed.

(** C3, amended. [prune] sweeps exactly when pruning is enabled, a solution
    exists, the ABSOLUTE VALUE of the fractional change
    (best_cost - pruned_cost)/pruned_cost exceeds the prune fraction (a
    non-finite pruned cost counting as an infinite change), and the sampler
    has no informed measure or one strictly smaller than the measure of the
    space. The sweep counts itself, prunes samples and graph and sets the
    pruned cost to the best cost; otherwise [prune] leaves the planner as it
    was. *)
Theorem prune_sweeps_on_magnitude s opt sampler :
  opt_ s = Some opt -> sampler_ s = Some sampler -> sweepable s ->
  let sweep :=
    usePruning_ s && hasSolution_ s
    && (pruneFraction_ s <? abs (changeSincePruning opt s))%float
    && (negb (hasInformedMeasure sampler)
        || (getInformedMeasure sampler (bestCost_ s) <? getSpaceMeasure (si_ s))%float) in
  (sweep = true ->
     prune s = pruneSweep s
     /\ exists s', prune s = Ok tt s'
                   /\ numPrunings_ s' = uint_incr (numPrunings_ s)
                   /\ prunedCost_ s' = bestCost_ s)
  /\ (sweep = false -> prune s = Ok tt s).
Proof.
  intros Ho Hs Hsw sweep.
  assert (prune s = if sweep then pruneSweep s else Ok tt s) as E.
  { unfold prune, sweep. unfold bind at 1. rewrite (pruneWorthwhile_at s opt Ho).
    destruct (usePruning_ s && hasSolution_ s
              && (pruneFraction_ s <? abs (changeSincePruning opt s))%float); [|reflexivity].
    unfold bind at 1. rewrite (informedSubsetSmaller_at s sampler Hs).
    simpl andb.
    destruct (negb (hasInformedMeasure sampler)
              || (getInformedMeasure sampler (bestCost_ s) <? getSpaceMeasure (si_ s))%float);
      reflexivity. }
  split; intros Hc; rewrite Hc in E; [|exact E].
  split; [exact E|].
  destruct (pruneSweep_returns s Hsw) as (s' & E' & Hn & Hp & _).
  exists s'. rewrite E. auto.
Qed.

(** ** Clearing *)

(** The eight settings of the planner. *)
Definition parameters s : bool * double * Z * bool * bool * bool * double * bool :=
  (useStrictQueueOrdering_ s, rewireFactor_ s, samplesPerBatch_ s, useFailureTracking_ s,
   useKNearest_ s, usePruning_ s, pruneFraction_ s, stopOnSolnChange_ s).

(** The run-time state as the constructor leaves it, but for the two costs
    [clear] zeroes and the store of vertex objects. *)
Definition cleared s : Prop :=
  sampler_ s = None /\ opt_ s = None /\ startVertex_ s = None /\ goalVertex_ s = None
  /\ freeStateNN_ s = None /\ vertexNN_ s = None /\ intQueue_ s = None
  /\ sampleDensity_ s = 0%float /\ r_ s = 0%float /\ k_rgg_ s = 0%float /\ k_ s = 0
  /\ bestCost_ s = DBL_INFINITY /\ prunedCost_ s = DBL_INFINITY
  /\ minCost_ s = 0%float /\ costSampled_ s = 0%float
  /\ hasSolution_ s = false /\ approximateSoln_ s = false /\ approximateDiff_ s = (-1)%float
  /\ numIterations_ s = 0 /\ numBatches_ s = 0 /\ numPrunings_ s = 0 /\ numSamples_ s = 0
  /\ numVertices_ s = 0 /\ numFreeStatesPruned_ s = 0 /\ numVerticesDisconnected_ s = 0
  /\ numRewirings_ s = 0 /\ numStateCollisionChecks_ s = 0 /\ numEdgeCollisionChecks_ s = 0
  /\ numNearestNeighbours_ s = 0
  /\ setup_ s = false.

(** C8. [clear] returns on every planner; afterwards the samplers, the start
    and goal vertices, both nearest-neighbour structures and the queue are
    gone, every cost and every counter has its reset value and the planner
    is marked as not set up; the eight settings are as they were. *)
Theorem clear_keeps_parameters s :
  exists s', clear s = Ok tt s' /\ cleared s' /\ parameters s' = parameters s.
Proof.
  unfold clear.
  destruct (freeStateNN_ s) as [fnn|] eqn:Ef;
    destruct (vertexNN_ s) as [vnn|] eqn:Ev;
    destruct (intQueue_ s) as [q|] eqn:Eq;
    repeat first
      [ progress run
      | progress (simpl (freeStateNN_ _); rewrite Ef)
      | progress (simpl (vertexNN_ _); rewrite Ev)
      | progress (simpl (intQueue_ _); rewrite Eq)
      | rewrite bool_decide_is_Some_Some
      | rewrite bool_decide_is_Some_None
      | progress unfold onFreeStateNN, onVertexNN
      | rewrite (bind_intQueue_at _ _ _ q) by (simpl; exact Eq) ];
    unfold modify; eexists; (split; [reflexivity|]);
    (split; [unfold cleared; simpl; rewrite ?Ef, ?Ev, ?Eq; repeat split; reflexivity
            | reflexivity]).
Qed.

(** ** Queries on the queue *)

Lemma bind_at {A B} (m : M State Queue A) (f : A -> M State Queue B) s a s' :
  m s = Ok a s' -> bind m f s = f a s'.
Proof. intros H. unfold bind. rewrite H. reflexivity. Qed.

(** C9. After the resort that strict queue ordering forces, if the queue says
    it is empty [getNextEdgeInQueue] returns two [NULL]s and
    [getNextEdgeValueInQueue] the objective's infinite cost; if it is not,
    they return the states of the two ends of the queue's front edge and the
    first component of the front edge's value. (The source asks the queue for
    its front edge once for each end; the model asks for the source's end
    first.) *)
Theorem next_edge_in_queue s s1 s2 (empty : bool) :
  when (useStrictQueueOrdering_ s) resort s = Ok tt s1 ->
  intQueue IntegratedQueue.isEmpty s1 = Ok empty s2 ->
  (empty = true ->
     getNextEdgeInQueue s = Ok (None, None) s2
     /\ forall opt, opt_ s2 = Some opt -> getNextEdgeValueInQueue s = Ok (infiniteCost opt) s2)
  /\ (empty = false ->
      (forall value s3,
         intQueue IntegratedQueue.frontEdgeValue s2 = Ok value s3 ->
         getNextEdgeValueInQueue s = Ok (fst value) s3)
      /\ (forall e1 e2 s3 s4 ux xx,
            intQueue IntegratedQueue.frontEdge s2 = Ok e1 s3 ->
            vertices s3 !! fst e1 = Some ux ->
            intQueue IntegratedQueue.frontEdge s3 = Ok e2 s4 ->
            vertices s4 !! snd e2 = Some xx ->
            getNextEdgeInQueue s = Ok (state ux, state xx) s4)).
Proof.
  intros Hresort Hempty.
  assert (forall B (f : bool -> M State Queue B),
            (let* strict := gets useStrictQueueOrdering_ in
             when strict resort >>
             let* empty := intQueue IntegratedQueue.isEmpty in f empty) s = f empty s2) as Hpre.
  { intros B f. rewrite bind_gets_at. rewrite (bind_at _ _ _ _ _ Hresort).
    apply (bind_at _ _ _ _ _ Hempty). }
  split; intros ->.
  - split.
    + unfold getNextEdgeInQueue. rewrite Hpre. reflexivity.
    + intros opt Ho. unfold getNextEdgeValueInQueue. rewrite Hpre. cbn [negb].
      rewrite (bind_deref_at _ _ _ _ Ho). reflexivity.
  - split.
    + intros value s3 Hv. unfold getNextEdgeValueInQueue. rewrite Hpre. cbn [negb].
      rewrite (bind_at _ _ _ _ _ Hv). reflexivity.
    + intros e1 e2 s3 s4 ux xx H1 Hu H2 Hx. unfold getNextEdgeInQueue. rewrite Hpre.
      cbn [negb]. rewrite (bind_at _ _ _ _ _ H1). unfold vertex.
      rewrite (bind_deref_at _ _ _ _ Hu). rewrite (bind_at _ _ _ _ _ H2).
      rewrite (bind_deref_at _ _ _ _ Hx). reflexivity.
Qed.

(** ** The heuristics on an allocated planner *)

Section Allocated.
Variable s : BITstar State Queue.
Variable opt : OptimizationObjective State.
Variables start goal : VertexPtr.
Variables sx gx : Vertex State.
Hypothesis Hopt : opt_ s = Some opt.
Hypothesis Hstart : startVertex_ s = Some start.
Hypothesis Hgoal : goalVertex_ s = Some goal.
Hypothesis Hsx : vertices s !! start = Some sx.
Hypothesis Hgx : vertices s !! goal = Some gx.

Variables u x : VertexPtr.
Variables ux xx : Vertex State.
Hypothesis Hux : vertices s !! u = Some ux.
Hypothesis Hxx : vertices s !! x = Some xx.

Lemma goalCost_at : goalCost s = Ok (getCost gx) s.
Proof using Hgoal Hgx. unfold goalCost, vertex. run. reflexivity. Qed.




End Allocated.

(** ** The first gate of the loop *)


Lemma intQueue_at {A} (c : IntegratedQueue.Call A) s q :
  intQueue_ s = Some q ->
  intQueue c s = Ok (fst (IntegratedQueue_call A c q s)) (commit (snd (IntegratedQueue_call A c q s)) s).
Proof.
  intros H. unfold intQueue. rewrite H. destruct (IntegratedQueue_call A c q s); reflexivity.
Qed.

(** What the loop changes only by processing an edge: the count of collision
    checks, of vertices added and of rewirings, the best cost and the
    solution flag. *)
Definition progress s : Z * Z * Z * Cost * bool :=
  (numEdgeCollisionChecks_ s, numVertices_ s, numRewirings_ s, bestCost_ s, hasSolution_ s).




(** ** The true edge cost and the second gate *)




(** ** Improving the solution *)

Lemma checkImprovedSolution_at s goal gx q (stopLoop : bool) :
  goalVertex_ s = Some goal -> vertices s !! goal = Some gx -> intQueue_ s = Some q ->
  checkImprovedSolution stopLoop s
  = if isCostBetterThan (getCost gx) (bestCost_ s) then
      let s1 := set_bestCost_ (getCost gx)
                  (set_hasSolution_ true
                     (if hasSolution_ s then s
                      else set_approximateDiff_ (-1)%float (set_approximateSoln_ false s))) in
      Ok (stopOnSolnChange_ s)
         (commit (snd (IntegratedQueue_call unit
                         (IntegratedQueue.setThreshold (getCost gx)) q s1)) s1)
    else Ok stopLoop s.
Proof.
  intros Hg Hgx Hq. unfold checkImprovedSolution.
  rewrite (bind_at _ _ _ _ _ (goalCost_at s goal gx Hg Hgx)). run.
  destruct (isCostBetterThan (getCost gx) (bestCost_ s)); [|reflexivity].
  run. destruct (hasSolution_ s) eqn:Hh; cbn [negb]; run;
    match goal with
    | |- context [bind goalCost _ ?s1] =>
        rewrite (bind_at _ _ _ _ _ (goalCost_at s1 goal gx Hg Hgx))
    end; run;
    rewrite (bind_intQueue_at _ _ _ q) by exact Hq; reflexivity.
Qed.

(** Where the search stands after some steps that started with best cost
    [b0] and solution flag [h0]: as it was, or with a strictly better best
    cost and a solution. *)
Definition solutionProgress (b0 : Cost) (h0 : bool) s' : Prop :=
  (bestCost_ s' = b0 /\ hasSolution_ s' = h0)
  \/ (isCostBetterThan (bestCost_ s') b0 = true /\ hasSolution_ s' = true).

(** The same after one step, with the stop flag: unchanged with the search,
    or the stop-on-improvement setting. *)
Definition improvedOrSame (b0 : Cost) (h0 stopLoop stopLoop' : bool) s' : Prop :=
  (bestCost_ s' = b0 /\ hasSolution_ s' = h0 /\ stopLoop' = stopLoop)
  \/ (isCostBetterThan (bestCost_ s') b0 = true /\ hasSolution_ s' = true
      /\ stopLoop' = stopOnSolnChange_ s').

Lemma improvedOrSame_progress b0 h0 stopLoop stopLoop' s' :
  improvedOrSame b0 h0 stopLoop stopLoop' s' -> solutionProgress b0 h0 s'.
Proof. intros [(? & ? & _) | (? & ? & _)]; [left | right]; auto. Qed.

Lemma solutionProgress_notWorse b0 h0 s' :
  solutionProgress b0 h0 s' -> notWorse (bestCost_ s') b0.
Proof. intros [[-> _] | [H _]]; [apply notWorse_refl | right; exact H]. Qed.

Lemma solutionProgress_trans b0 h0 s1 s2 :
  solutionProgress b0 h0 s1 -> solutionProgress (bestCost_ s1) (hasSolution_ s1) s2 ->
  solutionProgress b0 h0 s2.
Proof.
  intros [[E1 H1] | [B1 H1]] [[E2 H2] | [B2 H2]].
  - left. split; congruence.
  - right. rewrite E1 in B2. auto.
  - right. rewrite E2, H2. auto.
  - right. split; [exact (isCostBetterThan_trans _ _ _ B2 B1) | exact H2].
Qed.

(** The search as it stands: best cost [b0], solution flag [h0]. *)
Definition standsAt (b0 : Cost) (h0 : bool) s : Prop :=
  bestCost_ s = b0 /\ hasSolution_ s = h0.

Lemma standsAt_progress b0 h0 s : standsAt b0 h0 s -> solutionProgress b0 h0 s.
Proof. intros H. left. exact H. Qed.

Lemma checkImprovedSolution_hoare b0 h0 (stopLoop : bool) :
  hoare (standsAt b0 h0) (checkImprovedSolution stopLoop)
        (improvedOrSame b0 h0 stopLoop) (standsAt b0 h0).
Proof.
  intros s [Hb Hh].
  destruct (goalVertex_ s) as [goal|] eqn:Hg;
    [| unfold checkImprovedSolution, goalCost, bind, deref; rewrite Hg; exact I].
  destruct (vertices s !! goal) as [gx|] eqn:Hgx;
    [| unfold checkImprovedSolution, goalCost, vertex, bind, deref; rewrite Hg, Hgx; exact I].
  destruct (intQueue_ s) as [q|] eqn:Hq.
  - rewrite (checkImprovedSolution_at s goal gx q stopLoop Hg Hgx Hq).
    destruct (isCostBetterThan (getCost gx) (bestCost_ s)) eqn:Hbetter.
    + right. simpl. rewrite <- Hb. destruct (hasSolution_ s); auto.
    + left. auto.
  - unfold checkImprovedSolution.
    rewrite (bind_at _ _ _ _ _ (goalCost_at s goal gx Hg Hgx)). run.
    destruct (isCostBetterThan (getCost gx) (bestCost_ s)); [| left; auto].
    run. destruct (hasSolution_ s); cbn [negb]; run;
      match goal with
      | |- context [bind goalCost _ ?s1] =>
          rewrite (bind_at _ _ _ _ _ (goalCost_at s1 goal gx Hg Hgx))
      end; run;
      unfold bind, intQueue; simpl; rewrite Hq; exact I.
Qed.

Lemma hoare_bind_keeps {A B} (I : BITstar State Queue -> Prop) (m : M State Queue A)
    (f : A -> M State Queue B) Q E :
  keeps I m -> (forall s, I s -> E s) -> (forall a, hoare I (f a) Q E) ->
  hoare I (bind m f) Q E.
Proof.
  intros Hm HE Hf. apply hoare_bind with (Q := fun _ => I); [|exact Hf].
  intros s Hs. specialize (Hm s Hs). destruct (m s); auto.
Qed.

Lemma hoare_ret {A} (P : BITstar State Queue -> Prop) (a : A) Q E :
  (forall s, P s -> Q a s) -> hoare P (ret a) Q E.
Proof. intros H s Hs. exact (H s Hs). Qed.

Ltac keeps_field := keeps_unfold; repeat keeps_step; simpl; auto.
Ltac stands := unfold standsAt; keeps_field.
Ltac stays := apply hoare_ret; intros ? [? ?]; left; auto.

Lemma processEdge_hoare b0 h0 bestEdge (stopLoop : bool) :
  hoare (standsAt b0 h0) (processEdge bestEdge stopLoop)
        (improvedOrSame b0 h0 stopLoop) (solutionProgress b0 h0).
Proof.
  pose proof (standsAt_progress b0 h0) as HE.
  unfold processEdge.
  repeat (apply hoare_bind_keeps; [stands | exact HE | intros ?]).
  match goal with |- hoare _ (if ?b then _ else _) _ _ => destruct b end.
  - apply hoare_bind_keeps; [stands | exact HE | intros collisionFree].
    destruct collisionFree.
    + repeat (apply hoare_bind_keeps; [stands | exact HE | intros ?]).
      match goal with |- hoare _ (if ?b then _ else _) _ _ => destruct b end.
      * apply hoare_bind_keeps; [stands | exact HE | intros _].
        apply hoare_bind with (Q := improvedOrSame b0 h0 stopLoop).
        { eapply hoare_weaken;
            [apply (checkImprovedSolution_hoare b0 h0 stopLoop) | intros; eassumption
            | intros; eassumption | intros s Hs; apply HE; exact Hs]. }
        intros stopLoop'.
        apply hoare_bind with (Q := fun _ => improvedOrSame b0 h0 stopLoop stopLoop').
        { intros s Hs. unfold intQueue. destruct (intQueue_ s) as [q|]; [|exact I].
          destruct (IntegratedQueue_call _ _ q s) as [[] e]. exact Hs. }
        intros _. apply hoare_ret. auto.
      * stays.
    + apply hoare_bind_keeps; [stands | exact HE | intros _]. stays.
  - apply hoare_bind_keeps; [stands | exact HE | intros _]. stays.
Qed.

Lemma iteration_hoare b0 h0 (stopLoop : bool) :
  hoare (standsAt b0 h0) (iteration stopLoop)
        (improvedOrSame b0 h0 stopLoop) (solutionProgress b0 h0).
Proof.
  pose proof (standsAt_progress b0 h0) as HE.
  unfold iteration.
  repeat (apply hoare_bind_keeps; [stands | exact HE | intros ?]).
  unfold considerEdge.
  repeat (apply hoare_bind_keeps; [stands | exact HE | intros ?]).
  match goal with |- hoare _ (if ?b then _ else _) _ _ => destruct b end.
  - apply processEdge_hoare.
  - apply hoare_bind_keeps; [stands | exact HE | intros sorted].
    destruct sorted; cbn [negb];
      (apply hoare_bind_keeps; [stands | exact HE | intros _]); stays.
Qed.

(** The loop's condition changes nothing. *)
Lemma loopCondition_pure (terminate stopLoop : bool) s :
  loopCondition terminate stopLoop s = Undefined
  \/ exists continue, loopCondition terminate stopLoop s = Ok continue s
                      /\ (stopLoop = true -> continue = false)
                      /\ (terminate = true -> continue = false).
Proof.
  unfold loopCondition, bind, deref. destruct (opt_ s) as [opt|]; [|left; reflexivity].
  right. unfold gets, ret. destruct (isSatisfied opt (bestCost_ s)); [eauto|].
  destruct terminate; [eauto|].
  eexists. split; [reflexivity|]. split; [|discriminate].
  intros ->. apply andb_false_r.
Qed.

Lemma solveLoop_unfold fuel (ptc : nat -> bool) (asked : nat) (stopLoop : bool) s :
  solveLoop fuel ptc asked stopLoop s
  = match loopCondition (ptc asked) stopLoop s with
    | Ok true s1 =>
        match fuel with
        | O => None
        | S fuel' =>
            match iteration stopLoop s1 with
            | Ok stopLoop' s2 => solveLoop fuel' ptc (S asked) stopLoop' s2
            | Throw what s2 => Some (Throw what s2)
            | Undefined => Some Undefined
            end
        end
    | Ok false s1 => Some (Ok tt s1)
    | Throw what s1 => Some (Throw what s1)
    | Undefined => Some Undefined
    end.
Proof.
  destruct fuel; simpl; unfold bindR, liftR;
    destruct (loopCondition (ptc asked) stopLoop s) as [[|] s1 | |]; reflexivity.
Qed.

Lemma solveLoop_progress fuel (ptc : nat -> bool) (asked : nat) (stopLoop : bool) s :
  match solveLoop fuel ptc asked stopLoop s with
  | Some (Ok _ s') => solutionProgress (bestCost_ s) (hasSolution_ s) s'
  | Some (Throw _ s') => solutionProgress (bestCost_ s) (hasSolution_ s) s'
  | _ => True
  end.
Proof.
  revert asked stopLoop s. induction fuel as [|fuel IH]; intros asked stopLoop s;
    rewrite solveLoop_unfold;
    destruct (loopCondition_pure (ptc asked) stopLoop s) as [-> | (continue & -> & _)];
    try exact I; destruct continue; try exact I;
    try (apply standsAt_progress; split; reflexivity).
  pose proof (iteration_hoare (bestCost_ s) (hasSolution_ s) stopLoop s
                (conj eq_refl eq_refl)) as Hit.
  destruct (iteration stopLoop s) as [stopLoop' s2 | what s2 |]; [| exact Hit | exact I].
  apply improvedOrSame_progress in Hit.
  specialize (IH (S asked) stopLoop' s2).
  destruct (solveLoop fuel ptc (S asked) stopLoop' s2) as [[[] s' | what s' |]|];
    try exact I; eapply solutionProgress_trans; eassumption.
Qed.

Lemma solveLoop_notWorse fuel (ptc : nat -> bool) (asked : nat) (stopLoop : bool) s :
  match solveLoop fuel ptc asked stopLoop s with
  | Some (Ok _ s') => notWorse (bestCost_ s') (bestCost_ s)
  | Some (Throw _ s') => notWorse (bestCost_ s') (bestCost_ s)
  | _ => True
  end.
Proof.
  pose proof (solveLoop_progress fuel ptc asked stopLoop s) as H.
  destruct (solveLoop fuel ptc asked stopLoop s) as [[[] s' | what s' |]|];
    try exact I; eapply solutionProgress_notWorse; eassumption.
Qed.

(** C4. The best cost never gets worse. It is assigned in one place, the
    check after an edge was added: when the goal vertex's cost-to-come is
    strictly better than the best cost, the best cost becomes that cost, the
    queue's threshold is set to it, and the stop flag becomes the
    stop-on-improvement setting; otherwise nothing changes. So one pass of
    the loop leaves the best cost and the stop flag as they were or improves
    the cost strictly; over the whole loop the best cost ends as it started
    or strictly better; and a raised stop flag ends the loop at its next
    test. *)
Theorem best_cost_never_worse :
  (forall s goal gx q (stopLoop : bool),
     goalVertex_ s = Some goal -> vertices s !! goal = Some gx -> intQueue_ s = Some q ->
     checkImprovedSolution stopLoop s
     = if isCostBetterThan (getCost gx) (bestCost_ s) then
         let s1 := set_bestCost_ (getCost gx)
                     (set_hasSolution_ true
                        (if hasSolution_ s then s
                         else set_approximateDiff_ (-1)%float (set_approximateSoln_ false s))) in
         Ok (stopOnSolnChange_ s)
            (commit (snd (IntegratedQueue_call unit
                            (IntegratedQueue.setThreshold (getCost gx)) q s1)) s1)
       else Ok stopLoop s)
  /\ (forall s (stopLoop : bool),
        match iteration stopLoop s with
        | Ok stopLoop' s' =>
            improvedOrSame (bestCost_ s) (hasSolution_ s) stopLoop stopLoop' s'
        | Throw _ s' => notWorse (bestCost_ s') (bestCost_ s)
        | Undefined => True
        end)
  /\ (forall fuel (ptc : nat -> bool) (asked : nat) (stopLoop : bool) s,
        match solveLoop fuel ptc asked stopLoop s with
        | Some (Ok _ s') => notWorse (bestCost_ s') (bestCost_ s)
        | Some (Throw _ s') => notWorse (bestCost_ s') (bestCost_ s)
        | _ => True
        end)
  /\ (forall fuel (ptc : nat -> bool) (asked : nat) s opt,
        opt_ s = Some opt -> solveLoop fuel ptc asked true s = Some (Ok tt s)).
Proof.
  split; [exact checkImprovedSolution_at|].
  split.
  { intros s stopLoop.
    pose proof (iteration_hoare (bestCost_ s) (hasSolution_ s) stopLoop s
                  (conj eq_refl eq_refl)) as H.
    destruct (iteration stopLoop s); try exact H.
    eapply solutionProgress_notWorse; eassumption. }
  split; [exact solveLoop_notWorse|].
  intros fuel ptc asked s opt Ho. rewrite solveLoop_unfold.
  destruct (loopCondition_pure (ptc asked) true s) as [E | (continue & -> & Hstop & _)].
  - unfold loopCondition, bind, deref in E. rewrite Ho in E. simpl in E.
    destruct (isSatisfied opt (bestCost_ s)); [discriminate|].
    destruct (ptc asked); discriminate.
  - rewrite (Hstop eq_refl). reflexivity.
Qed.


(** ** The status [solve] returns *)










(** The member functions a user of the planner may call. *)
Inductive Call : Type :=
| call_setProblemDefinition (pdef : ProblemDefinition State)
| call_setup
| call_clear
| call_solve (fuel : nat) (ptc : nat -> bool)
| call_getNextEdgeInQueue
| call_getNextEdgeValueInQueue
| call_getEdgeQueue
| call_getVertexQueue
| call_setNearestNeighbors
| call_setRewireFactor (rewireFactor : double)
| call_setSamplesPerBatch (n : Z)
| call_setKNearest (useKNearest : bool)
| call_setUseFailureTracking (trackFailures : bool)
| call_setStrictQueueOrdering (beStrict : bool)
| call_setPruning (prune : bool)
| call_setPruneThresholdFraction (fractionalChange : double)
| call_setStopOnSolnImprovement (stopOnChange : bool).














(** ** Where the planner computes the RGG terms *)

(** [initializeNearestTerms] stores [minimumRggK()] in [k_rgg_] and then, for
    N the number of vertices and samples, [k(N)] in [k_] in k-nearest mode
    and [r(N)] in [r_] otherwise. *)
Lemma initializeNearestTerms_at s s' sampler vnn fnn :
  sampler_ s = Some sampler -> vertexNN_ s = Some vnn -> freeStateNN_ s = Some fnn ->
  initializeNearestTerms s = Ok tt s' ->
  let d := getStateDimension (si_ s) in
  let N := uint_add (NN_size vnn) (NN_size fnn) in
  k_rgg_ s' = NearestTerms.minimumRggK (ops := binary64_ops) d (rewireFactor_ s)
  /\ (useKNearest_ s = true ->
      Some (k_ s') = NearestTerms.k (ops := binary64_ops) (k_rgg_ s') N)
  /\ (useKNearest_ s = false ->
      r_ s' = NearestTerms.r (ops := binary64_ops) d
                (getInformedMeasure sampler (bestCost_ s)) unitNBallMeasure
                (rewireFactor_ s) N).
Proof.
  intros Hs Hv Hf. unfold initializeNearestTerms, minimumRggK, updateNearestTerms.
  run. simpl (useKNearest_ _). destruct (useKNearest_ s) eqn:Hk.
  - unfold k. run. simpl (k_rgg_ _). unfold bind at 1, deref.
    destruct (NearestTerms.k _ _) as [n|] eqn:Ek; [|discriminate].
    unfold modify. intros H. injection H as <-. simpl.
    split; [reflexivity|]. split; [intros _; symmetry; exact Ek | discriminate].
  - unfold r, informedMeasure. run. unfold modify. intros H. injection H as <-. simpl.
    split; [reflexivity|]. split; [discriminate | reflexivity].
Qed.

End Properties.

(** * The RGG terms as formulas *)

Section RggFormulas.
Import Ideal.
Local Open Scope R_scope.








End RggFormulas.

(** * The properties at work on the line *)

Section OnTheLine.
Import Line.

Lemma ready_start : vertices ready !! 1%positive = Some startOnLine.
Proof. vm_compute. reflexivity. Qed.

Lemma ready_goal : vertices ready !! 2%positive = Some goalOnLine.
Proof. vm_compute. reflexivity. Qed.







Lemma improved_sweepable : sweepable improved.
Proof. split; vm_compute; eauto. Qed.

(** C3 as stated fails: with best cost 1 and pruned cost 2 the fractional
    change is -1/2, which does not exceed the prune fraction 0.01, and yet
    [prune] sweeps: it counts a pruning and sets the pruned cost to 1. *)
Lemma prune_sweeps_on_negative_change :
  signedPruneTest (pathLength si) sampler improved = false
  /\ numPrunings_ improved = 0 /\ prunedCost_ improved = 2%float
  /\ exists s', prune improved = Ok tt s'
                /\ numPrunings_ s' = 1 /\ prunedCost_ s' = 1%float.
Proof.
  split; [vm_compute; reflexivity|]. split; [reflexivity|]. split; [reflexivity|].
  eexists. split; [vm_compute; reflexivity|]. split; reflexivity.
Qed.

Lemma prune_sweeps_on_magnitude_witness :
  exists s', prune improved = Ok tt s'
             /\ numPrunings_ s' = uint_incr (numPrunings_ improved)
             /\ prunedCost_ s' = bestCost_ improved.
Proof.
  exact (proj2 (proj1 (prune_sweeps_on_magnitude improved (pathLength si) sampler
                         eq_refl eq_refl improved_sweepable)
                  ltac:(vm_compute; reflexivity))).
Defined.

(** One pass of the loop from [ready] finds the solution of cost 1. *)
Lemma best_cost_never_worse_witness :
  match iteration false ready with
  | Ok stopLoop' s' =>
      improvedOrSame (bestCost_ ready) (hasSolution_ ready) false stopLoop' s'
  | Throw _ s' => notWorse (bestCost_ s') (bestCost_ ready)
  | Undefined => True
  end.
Proof. exact (proj1 (proj2 (best_cost_never_worse (IQ := queue))) ready false). Defined.


Lemma addVertex_requires_connection_witness :
  addVertex 2%positive true true ready
  = Throw "Vertices must be connected to the graph before adding" ready.
Proof.
  exact (proj1 (addVertex_requires_connection ready 2%positive goalOnLine true true ready_goal)
           eq_refl eq_refl).
Defined.



Lemma ready_resorted : when (useStrictQueueOrdering_ ready) resort ready = Ok tt ready.
Proof. vm_compute. reflexivity. Qed.

Lemma ready_isEmpty : intQueue IntegratedQueue.isEmpty ready = Ok true ready.
Proof. vm_compute. reflexivity. Qed.

Lemma next_edge_in_queue_witness :
  getNextEdgeInQueue ready = Ok (None, None) ready.
Proof.
  exact (proj1 (proj1 (next_edge_in_queue (IQ := queue) ready ready ready true
                         ready_resorted ready_isEmpty) eq_refl)).
Defined.

Lemma nnDistance_reverses_arguments_witness :
  nnDistance 1%positive 2%positive ready = Ok 1%float ready.
Proof.
  exact (proj1 (nnDistance_reverses_arguments ready 1%positive 2%positive
                  startOnLine goalOnLine ready_start ready_goal)
           0%float 1%float eq_refl eq_refl).
Defined.
End OnTheLine.
